(** * LightAPI: generic CRUD handlers over a request-scoped session

    A shallow embedding of [handlers.py] and [database.py].  Handlers are
    written in a state-and-exception monad over the storage, the session handed
    to [handle] and the Python heap holding the mapped instances, so that every
    line of a handler has a counterpart here.

    Scope of the model.  Values are JSON values without floats.  What a
    column's type makes of a value and which keys the engine can look up are
    parameters of the platform.  A key is an integer: a value of another kind
    assigned to [pk] is refused, where an engine may convert it.  Column
    defaults and constraints other than the primary key are not modelled.  Attribute names that Python or the mapper
    treat specially (dunder names, the instrumentation state) are left out. *)

From Stdlib Require Import ZArith Ascii String.
From stdpp Require Import base option gmap strings list fin_maps pretty.

#[local] Set Warnings "-register-all".
Local Open Scope string_scope.
Local Open Scope Z_scope.
Local Open Scope list_scope.
Local Open Scope stdpp_scope.

(** ** Python values, exceptions, responses *)

(** What [request.json()] can yield and what [web.json_response] can encode.
    A [VDict] lists its items in insertion order. *)
Inductive value : Type :=
  | VNone
  | VBool (b : bool)
  | VInt (n : Z)
  | VStr (s : string)
  | VList (l : list value)
  | VDict (d : list (string * value)).

Inductive exn : Type :=
  | ValueError
  | KeyError
  | TypeError
  | AttributeError
  | JSONDecodeError
  | IntegrityError
  | StaleDataError
  | InvalidRequestError
  | OverflowError
  | InterfaceError.

Inductive result (A : Type) : Type :=
  | Ok (a : A)
  | Raise (e : exn).
Arguments Ok {A} a.
Arguments Raise {A} e.

Inductive Body : Type :=
  | NoBody
  | TextBody (s : string)
  | JsonBody (v : value).

(** [web.Response]: the status, the payload and what the caller passed as
    content type or headers. *)
Record Response : Type := {
  status : Z;
  body : Body;
  content_type : option string;
  headers : list (string * string);
}.

(** [web.Request], as far as the handlers look at it: the route's match info
    and the body, [None] when it is not a JSON document. *)
Record Request : Type := {
  match_info : gmap string string;
  json_body : option value;
}.

(** ** Mapped classes and their instances *)

(** A subclass of [CustomBase]: its table, the names of the table's columns in
    declaration order (the primary key is the integer column [pk]) and the
    other attributes the class defines ([as_dict], [metadata], ...). *)
Record Model : Type := {
  tablename : string;
  columns : list string;
  class_attrs : list string;
}.

(** An instance of a mapped class.  [key] is the primary key of the row the
    instance stands for ([None] while transient), [cols] the values of its
    column attributes, [extra] whatever else was assigned on it, and [dirty]
    the column attributes set since it was loaded, in the order they were
    set. *)
Record Instance : Type := {
  key : option Z;
  cols : gmap string value;
  extra : gmap string value;
  dirty : list string;
}.

(** Whether a column attribute was set since the instance was loaded. *)
Definition modified (inst : Instance) : bool := bool_decide (dirty inst ≠ []).

#[global] Instance Instance_inhabited : Inhabited Instance :=
  populate {| key := None; cols := ∅; extra := ∅; dirty := [] |}.

(** ** Session, storage and heap *)

Inductive SessionCall : Type :=
  | CQuery
  | CAdd
  | CDelete
  | CCommit
  | CRefresh
  | CClose.

#[global] Instance SessionCall_eq_dec : EqDecision SessionCall.
Proof. solve_decision. Defined.

(** A [Session]: whether it is open, the methods called on it so far, and the
    unit of work (references to pending, persistent and deleted
    instances). *)
Record Session : Type := {
  is_open : bool;
  calls : list SessionCall;
  new : list nat;
  identity_map : list nat;
  deleted : list nat;
}.

(** What a handler runs against: the model's table (rows by primary key), the
    session it was given as [db], and the heap of instances. *)
Record State : Type := {
  table : gmap Z (gmap string value);
  session : Session;
  heap : list Instance;
}.

(** The interpreter's [int()] on a route segment and the storage engine are
    not part of the repository; handlers are parametric in them.  Of the
    engine: the key it generates for a new row, the error it raises for a key
    it cannot look up because the integer is outside its range ([None] for a
    key it can), and what the type of a column other than [pk] makes of a
    value written to it (the value to store, or the error of a value it
    cannot bind). *)
Class Platform : Type := {
  py_int : string → option Z;
  generated_pk : gmap Z (gmap string value) → Z;
  key_error : Z → option exn;
  bind : string → value → result value;
}.

(** ** The monad *)

Definition M (A : Type) : Type := State → result A * State.

#[global] Instance M_ret : MRet M := λ A a st, (Ok a, st).

#[global] Instance M_bind : MBind M := λ A B f m st,
  match m st with
  | (Ok a, st') => f a st'
  | (Raise e, st') => (Raise e, st')
  end.

Definition raise {A : Type} (e : exn) : M A := λ st, (Raise e, st).

Definition lift_result {A : Type} (r : result A) : M A := λ st, (r, st).

Definition get_state : M State := λ st, (Ok st, st).

Definition modify (f : State → State) : M unit := λ st, (Ok tt, f st).

(** [for x in l: f(x)] *)
Fixpoint for_each {A : Type} (l : list A) (f : A → M unit) : M unit :=
  match l with
  | [] => mret tt
  | x :: l' => f x ;; for_each l' f
  end.

(** [[f(x) for x in l]] *)
Fixpoint comprehension {A B : Type} (l : list A) (f : A → M B) : M (list B) :=
  match l with
  | [] => mret []
  | x :: l' => y ← f x; ys ← comprehension l' f; mret (y :: ys)
  end.

Definition with_session (f : Session → Session) (st : State) : State :=
  {| table := table st; session := f (session st); heap := heap st |}.

Definition with_table (f : gmap Z (gmap string value) → gmap Z (gmap string value))
    (st : State) : State :=
  {| table := f (table st); session := session st; heap := heap st |}.

Definition with_heap (f : list Instance → list Instance) (st : State) : State :=
  {| table := table st; session := session st; heap := f (heap st) |}.

Definition record_call (c : SessionCall) (s : Session) : Session :=
  {| is_open := is_open s; calls := calls s ++ [c]; new := new s;
     identity_map := identity_map s; deleted := deleted s |}.

Definition log_call (c : SessionCall) : M unit := modify (with_session (record_call c)).

Definition deref (item : nat) : M Instance := λ st, (Ok (heap st !!! item), st).

Definition alloc (inst : Instance) : M nat := λ st,
  (Ok (length (heap st)), with_heap (λ h, h ++ [inst]) st).

Definition set_instance (item : nat) (inst : Instance) : M unit :=
  modify (with_heap (λ h, <[item := inst]> h)).

(** [try: body finally: final] *)
Definition try_finally {A : Type} (body : M A) (final : M unit) : M A := λ st,
  match body st with
  | (r, st') =>
      match final st' with
      | (Ok _, st'') => (r, st'')
      | (Raise e, st'') => (Raise e, st'')
      end
  end.

Section Handlers.
Context `{Platform}.

(** ** database.py *)

(** [CustomBase.as_dict], called as [item.as_dict()]: the method is found on
    the class unless an attribute of that name was assigned on the instance,
    and then the call fails. *)
Definition as_dict (self : Model) (item : nat) : M value :=
  inst ← deref item;
  match extra inst !! "as_dict" with
  | Some _ => raise TypeError
  | None => mret (VDict (map (λ c, (c, default VNone (cols inst !! c))) (columns self)))
  end.

(** [SessionLocal()] *)
Definition SessionLocal : Session :=
  {| is_open := true; calls := []; new := []; identity_map := []; deleted := [] |}.

(** ** The session's methods

    The session is [autoflush=False], [autocommit=False]: pending changes
    reach the table in [commit] only. *)

(** A row read by a query becomes the instance the identity map already holds
    for its key, or a new persistent instance. *)
Definition load (p : Z) (row : gmap string value) : M nat := λ st,
  match List.find (λ r, bool_decide (key <$> heap st !! r = Some (Some p)))
          (identity_map (session st)) with
  | Some r => (Ok r, st)
  | None =>
      let r := length (heap st) in
      (Ok r,
       {| table := table st;
          session :=
            {| is_open := is_open (session st); calls := calls (session st);
               new := new (session st);
               identity_map := identity_map (session st) ++ [r];
               deleted := deleted (session st) |};
          heap := heap st ++ [{| key := Some p; cols := <["pk" := VInt p]> row;
                                 extra := ∅; dirty := [] |}] |})
  end.

(** [db.query(self.model).all()] *)
Definition query_all : M (list nat) :=
  log_call CQuery ;;
  st ← get_state;
  comprehension (map_to_list (table st)) (λ '(p, row), load p row).

(** [db.add(item)] *)
Definition add (item : nat) : M unit :=
  log_call CAdd ;;
  inst ← deref item;
  st ← get_state;
  let s := session st in
  match key inst with
  | None =>
      if bool_decide (item ∈ new s) then mret tt
      else modify (with_session (λ s,
             {| is_open := is_open s; calls := calls s; new := new s ++ [item];
                identity_map := identity_map s; deleted := deleted s |}))
  | Some _ =>
      if bool_decide (item ∈ identity_map s) then mret tt
      else modify (with_session (λ s,
             {| is_open := is_open s; calls := calls s; new := new s;
                identity_map := identity_map s ++ [item]; deleted := deleted s |}))
  end.

(** [db.delete(item)] *)
Definition delete_item (item : nat) : M unit :=
  log_call CDelete ;;
  inst ← deref item;
  match key inst with
  | None => raise InvalidRequestError
  | Some _ =>
      modify (with_session (λ s,
        {| is_open := is_open s; calls := calls s; new := new s;
           identity_map := identity_map s; deleted := deleted s ++ [item] |}))
  end.

(** The row a statement writes: [row] with, for every column of [set] other
    than [pk], the instance's value as the column's type stores it.  A value
    the type cannot bind fails the statement. *)
Fixpoint bind_columns (set : list string) (attrs row : gmap string value)
    : result (gmap string value) :=
  match set with
  | [] => Ok row
  | c :: set' =>
      if decide (c = "pk") then bind_columns set' attrs row
      else
        match bind c (default VNone (attrs !! c)) with
        | Ok v => bind_columns set' attrs (<[c := v]> row)
        | Raise e => Raise e
        end
  end.

(** INSERT of a pending instance; the engine generates the key when the
    instance has none, and refuses a key that is no integer or that is taken.
    The instance is left with what the row holds: the commit expires its
    attributes, and they are read again from the table. *)
Definition flush_insert (item : nat) : M unit :=
  inst ← deref item;
  st ← get_state;
  row ← lift_result (bind_columns (dirty inst) (cols inst) ∅);
  p ← match cols inst !! "pk" with
      | None | Some VNone => mret (generated_pk (table st))
      | Some (VInt p) => mret p
      | Some _ => raise IntegrityError
      end;
  match table st !! p with
  | Some _ => raise IntegrityError
  | None =>
      modify (with_table (insert p (<["pk" := VInt p]> row))) ;;
      set_instance item
        {| key := Some p; cols := <["pk" := VInt p]> row;
           extra := extra inst; dirty := [] |}
  end.

(** UPDATE of a persistent instance whose column attributes were set: the
    statement sets those columns and no others, and moves the row when [pk]
    was set to another key. *)
Definition flush_update (item : nat) : M unit :=
  inst ← deref item;
  match key inst, modified inst with
  | Some k, true =>
      st ← get_state;
      match table st !! k, cols inst !! "pk" with
      | None, _ => raise StaleDataError
      | Some old, pk =>
          row ← lift_result (bind_columns (dirty inst) (cols inst) old);
          match pk with
          | Some (VInt q) =>
              if bool_decide (q ≠ k ∧ is_Some (table st !! q)) then raise IntegrityError
              else
                modify (with_table (λ t, <[q := <["pk" := VInt q]> row]> (delete k t))) ;;
                set_instance item
                  {| key := Some q; cols := <["pk" := VInt q]> row;
                     extra := extra inst; dirty := [] |}
          | _ => raise IntegrityError
          end
      end
  | _, _ => mret tt
  end.

(** DELETE of an instance marked by [db.delete]. *)
Definition flush_delete (item : nat) : M unit :=
  inst ← deref item;
  match key inst with
  | Some k => modify (with_table (delete k))
  | None => mret tt
  end.

Definition flush : M unit :=
  st ← get_state;
  let s := session st in
  let kept := filter (λ r, r ∉ deleted s) (identity_map s) in
  for_each (new s) flush_insert ;;
  for_each kept flush_update ;;
  for_each (deleted s) flush_delete ;;
  modify (with_session (λ s',
    {| is_open := is_open s'; calls := calls s'; new := [];
       identity_map := kept ++ new s; deleted := [] |})).

(** [db.commit()]: the flush is one transaction, a failure leaves the table
    as it was. *)
Definition commit : M unit := λ st,
  match flush st with
  | (Ok _, st') => log_call CCommit st'
  | (Raise e, _) => (Raise e, with_session (record_call CCommit) st)
  end.

(** [db.refresh(item)] *)
Definition refresh (item : nat) : M unit :=
  log_call CRefresh ;;
  inst ← deref item;
  st ← get_state;
  match key inst with
  | None => raise InvalidRequestError
  | Some k =>
      match table st !! k with
      | None => raise InvalidRequestError
      | Some row =>
          set_instance item
            {| key := Some k; cols := <["pk" := VInt k]> row; extra := extra inst;
               dirty := [] |}
      end
  end.

(** [db.close()] *)
Definition close (s : Session) : Session :=
  {| is_open := false; calls := calls s ++ [CClose]; new := [];
     identity_map := []; deleted := [] |}.

Definition db_close : M unit := modify (with_session close).

(** ** Python on instances and requests *)

Definition hasattr (cls : Model) (k : string) : bool :=
  bool_decide (k ∈ columns cls ++ class_attrs cls).

(** [setattr(item, k, v)]: a column attribute is instrumented, any other name
    lands in the instance's own dictionary. *)
Definition set_attribute (cls : Model) (k : string) (v : value) (inst : Instance)
    : Instance :=
  if bool_decide (k ∈ columns cls) then
    {| key := key inst; cols := <[k := v]> (cols inst); extra := extra inst;
       dirty := dirty inst ++ [k] |}
  else
    {| key := key inst; cols := cols inst; extra := <[k := v]> (extra inst);
       dirty := dirty inst |}.

Definition setattr (cls : Model) (item : nat) (k : string) (v : value) : M unit :=
  inst ← deref item;
  set_instance item (set_attribute cls k v inst).

(** [self.model] called with the items of [data] as keyword arguments: the
    declarative constructor rejects a keyword the class has no attribute
    for. *)
Definition model_init (cls : Model) (data : value) : M nat :=
  match data with
  | VDict kwargs =>
      item ← alloc {| key := None; cols := ∅; extra := ∅; dirty := [] |};
      for_each kwargs (λ '(k, v),
        if hasattr cls k then setattr cls item k v else raise TypeError) ;;
      mret item
  | _ => raise TypeError
  end.

(** [data.items()] *)
Definition items (data : value) : M (list (string * value)) :=
  match data with
  | VDict d => mret d
  | _ => raise AttributeError
  end.

(** [request.match_info[k]] *)
Definition match_info_getitem (request : Request) (k : string) : M string :=
  match match_info request !! k with
  | Some v => mret v
  | None => raise KeyError
  end.

(** [int(s)] *)
Definition int (s : string) : M Z :=
  match py_int s with
  | Some n => mret n
  | None => raise ValueError
  end.

(** [web.json_response(data, status=status)] *)
Definition web_json_response (data : value) (status : Z) : Response :=
  {| status := status; body := JsonBody data;
     content_type := Some "application/json"; headers := [] |}.

(** ** handlers.py *)

(** What [json_response] is handed as [item]. *)
Inductive pyobj : Type :=
  | Entity (item : nat)
  | PyList (l : list value).

Definition get_request_json (request : Request) : M value :=
  match json_body request with
  | Some data => mret data
  | None => raise JSONDecodeError
  end.

(** The query finds the row stored under [item_id], if there is one.  A key
    the engine stores is one it can look up; for a key it cannot, the query
    raises the engine's error instead of finding nothing. *)
Definition get_item_by_id (self : Model) (item_id : Z) : M (option nat) :=
  log_call CQuery ;;
  (if bool_decide ("pk" ∈ columns self) then mret tt else raise AttributeError) ;;
  st ← get_state;
  match table st !! item_id with
  | Some row => item ← load item_id row; mret (Some item)
  | None =>
      match key_error item_id with
      | Some e => raise e
      | None => mret None
      end
  end.

Definition add_and_commit_item (item : nat) : M nat :=
  add item ;;
  commit ;;
  refresh item ;;
  mret item.

Definition delete_and_commit_item (item : nat) : M unit :=
  delete_item item ;;
  commit.

Definition json_response (self : Model) (item : pyobj) (status : Z) : M Response :=
  data ← match item with
         | Entity item => as_dict self item
         | PyList _ => raise AttributeError
         end;
  mret (web_json_response data status).

Definition json_error_response (error_message : string) (status : Z) : M Response :=
  mret (web_json_response (VDict [("error", VStr error_message)]) status).

Definition ConcreteHandler_handle (self : Model) (request : Request) : M Response :=
  mret {| status := 200; body := TextBody "Handled request";
          content_type := None; headers := [] |}.

Definition CreateHandler_handle (self : Model) (request : Request) : M Response :=
  data ← get_request_json request;
  item ← model_init self data;
  item ← add_and_commit_item item;
  json_response self (Entity item) 201.

Definition ReadHandler_handle (self : Model) (request : Request) : M Response :=
  match match_info request !! "id" with
  | None =>
      items ← query_all;
      response ← comprehension items (as_dict self);
      json_response self (PyList response) 200
  | Some id =>
      item_id ← int id;
      item ← get_item_by_id self item_id;
      match item with
      | Some item => json_response self (Entity item) 200
      | None => json_error_response "Item not found" 404
      end
  end.

Definition UpdateHandler_handle (self : Model) (request : Request) : M Response :=
  id ← match_info_getitem request "id";
  item_id ← int id;
  item ← get_item_by_id self item_id;
  match item with
  | None => json_error_response "Item not found" 404
  | Some item =>
      data ← get_request_json request;
      kvs ← items data;
      for_each kvs (λ '(key, value), setattr self item key value) ;;
      item ← add_and_commit_item item;
      json_response self (Entity item) 200
  end.

Definition PatchHandler_handle (self : Model) (request : Request) : M Response :=
  id ← match_info_getitem request "id";
  item_id ← int id;
  item ← get_item_by_id self item_id;
  match item with
  | None => json_error_response "Item not found" 404
  | Some item =>
      data ← get_request_json request;
      kvs ← items data;
      for_each kvs (λ '(key, value), setattr self item key value) ;;
      item ← add_and_commit_item item;
      json_response self (Entity item) 200
  end.

Definition DeleteHandler_handle (self : Model) (request : Request) : M Response :=
  id ← match_info_getitem request "id";
  item_id ← int id;
  item ← get_item_by_id self item_id;
  match item with
  | None => json_error_response "Item not found" 404
  | Some item =>
      delete_and_commit_item item ;;
      mret {| status := 204; body := NoBody; content_type := None; headers := [] |}
  end.

Definition RetrieveAllHandler_handle (self : Model) (request : Request) : M Response :=
  items ← query_all;
  response ← comprehension items (as_dict self);
  mret (web_json_response (VList response) 200).

Definition OptionsHandler_handle (self : Model) (request : Request) : M Response :=
  mret (web_json_response
    (VDict [("allowed_methods",
             VList [VStr "GET"; VStr "POST"; VStr "PUT"; VStr "DELETE";
                    VStr "PATCH"; VStr "OPTIONS"; VStr "HEAD"]);
            ("allowed_headers", VList [VStr "Content-Type"; VStr "Authorization"]);
            ("max_age", VInt 3600)])
    200).

Definition HeadHandler_handle (self : Model) (request : Request) : M Response :=
  mret {| status := 200; body := NoBody; content_type := None;
          headers := [("Content-Type", "application/json")] |}.

(** ** The session-scoped wrapper *)

(** The process as requests see it: the table, and every session created so
    far (the latest last). *)
Record World : Type := {
  storage : gmap Z (gmap string value);
  sessions : list Session;
}.

(** [AbstractHandler.__call__].  [handle] stands for the subclass's method;
    the session it receives as [db] is the one of the state it runs in. *)
Definition AbstractHandler_call (handle : Request → M Response) (request : Request)
    (w : World) : result Response * World :=
  let db := SessionLocal in
  let '(r, st) :=
    try_finally (handle request) db_close
      {| table := storage w; session := db; heap := [] |} in
  (r, {| storage := table st; sessions := sessions w ++ [session st] |}).

(** ** Routes *)

Inductive Method : Type :=
  | POST
  | GET
  | PUT
  | DELETE
  | PATCH
  | OPTIONS
  | HEAD.

(** [create_handler]: the eight routes of a model.  A handler object is
    called through [__call__]. *)
Definition create_handler (model : Model)
    : list (Method * string * (Request → World → result Response * World)) :=
  [ (POST, "/" +:+ tablename model +:+ "/",
     AbstractHandler_call (CreateHandler_handle model));
    (GET, "/" +:+ tablename model +:+ "/",
     AbstractHandler_call (RetrieveAllHandler_handle model));
    (GET, "/" +:+ tablename model +:+ "/{id}",
     AbstractHandler_call (ReadHandler_handle model));
    (PUT, "/" +:+ tablename model +:+ "/{id}",
     AbstractHandler_call (UpdateHandler_handle model));
    (DELETE, "/" +:+ tablename model +:+ "/{id}",
     AbstractHandler_call (DeleteHandler_handle model));
    (PATCH, "/" +:+ tablename model +:+ "/{id}",
     AbstractHandler_call (PatchHandler_handle model));
    (OPTIONS, "/" +:+ tablename model +:+ "/",
     AbstractHandler_call (OptionsHandler_handle model));
    (HEAD, "/" +:+ tablename model +:+ "/",
     AbstractHandler_call (HeadHandler_handle model)) ].

End Handlers.

(** ** A concrete platform

    [int()] on ASCII text (surrounding white space, an optional sign, decimal
    digits with single underscores between them) and an engine in the manner
    of SQLite: a new key is one more than the largest key in use, keys are
    64-bit integers, and the columns other than [pk] are text columns, which
    store a number as its decimal text and cannot bind a list or a dict. *)
Module Concrete.

Definition is_space (c : ascii) : bool :=
  let n := Z.of_nat (nat_of_ascii c) in
  ((9 <=? n) && (n <=? 13)) || (n =? 32).

Definition digit_of (c : ascii) : option Z :=
  let n := Z.of_nat (nat_of_ascii c) in
  if (48 <=? n) && (n <=? 57) then Some (n - 48) else None.

Fixpoint lstrip (l : list ascii) : list ascii :=
  match l with
  | c :: l' => if is_space c then lstrip l' else l
  | [] => []
  end.

Definition strip (l : list ascii) : list ascii :=
  rev (lstrip (rev (lstrip l))).

(** [after_digit] tells whether the previous character was a digit: only then
    may an underscore follow or the literal end. *)
Fixpoint digits (l : list ascii) (acc : Z) (after_digit : bool) : option Z :=
  match l with
  | [] => if after_digit then Some acc else None
  | c :: l' =>
      match digit_of c with
      | Some d => digits l' (10 * acc + d) true
      | None =>
          if bool_decide (c = "_"%char) && after_digit then digits l' acc false
          else None
      end
  end.

Definition int_of_ascii (s : string) : option Z :=
  match strip (list_ascii_of_string s) with
  | c :: l =>
      if bool_decide (c = "-"%char) then Z.opp <$> digits l 0 false
      else if bool_decide (c = "+"%char) then digits l 0 false
      else digits (c :: l) 0 false
  | [] => None
  end.

Definition next_rowid (t : gmap Z (gmap string value)) : Z :=
  match map_fold (λ k _ acc, Some (from_option (Z.max k) k acc)) None t with
  | Some largest => largest + 1
  | None => 1
  end.

Definition int64_error (k : Z) : option exn :=
  if (- 2 ^ 63 <=? k) && (k <? 2 ^ 63) then None else Some OverflowError.

(** The driver binds [None], text and integers of 64 bits; a text column
    stores an integer as its decimal text.  A list or a dict is refused by the
    driver ([InterfaceError]; [ProgrammingError] since Python 3.11). *)
Definition bind_text (c : string) (v : value) : result value :=
  match v with
  | VNone => Ok VNone
  | VStr s => Ok (VStr s)
  | VInt n =>
      match int64_error n with
      | Some e => Raise e
      | None => Ok (VStr (pretty n))
      end
  | VBool b => Ok (VStr (if b then "1" else "0"))
  | VList _ | VDict _ => Raise InterfaceError
  end.

#[export] Instance platform : Platform :=
  {| py_int := int_of_ascii; generated_pk := next_rowid;
     key_error := int64_error; bind := bind_text |}.

End Concrete.

(** ** Fixtures: a model with a [name] column and small worlds *)

Definition Thing : Model :=
  {| tablename := "thing"; columns := ["pk"; "name"];
     class_attrs := ["as_dict"; "metadata"; "registry"] |}.

Definition empty_world : World := {| storage := ∅; sessions := [] |}.

Definition one_thing : World :=
  {| storage := {[ 1 := {[ "pk" := VInt 1; "name" := VStr "a" ]} ]}; sessions := [] |}.

Definition blank_state (t : gmap Z (gmap string value)) : State :=
  {| table := t; session := SessionLocal; heap := [] |}.

Definition collection_request (data : option value) : Request :=
  {| match_info := ∅; json_body := data |}.

Definition item_request (id : string) (data : option value) : Request :=
  {| match_info := {[ "id" := id ]}; json_body := data |}.

Definition post_name_a : Request :=
  collection_request (Some (VDict [("name", VStr "a")])).

Definition post_invalid_field : Request :=
  collection_request (Some (VDict [("invalid_field", VStr "Invalid Value")])).

Definition put_name_b : Request :=
  item_request "1" (Some (VDict [("name", VStr "b")])).

Definition put_bogus : Request :=
  item_request "1" (Some (VDict [("bogus", VInt 1)])).

Definition thing_1 (name : string) : Response :=
  {| status := 200; body := JsonBody (VDict [("pk", VInt 1); ("name", VStr name)]);
     content_type := Some "application/json"; headers := [] |}.

(** The response every miss is answered with. *)
Definition not_found : Response :=
  {| status := 404; body := JsonBody (VDict [("error", VStr "Item not found")]);
     content_type := Some "application/json"; headers := [] |}.

(** The state a handler leaves when all it did was one query that loaded
    nothing. *)
Definition only_queried (st : State) : State :=
  {| table := table st;
     session :=
       {| is_open := is_open (session st); calls := calls (session st) ++ [CQuery];
          new := new (session st); identity_map := identity_map (session st);
          deleted := deleted (session st) |};
     heap := heap st |}.

(** ** Vocabulary of the properties *)

(** [d[k]] for the dict whose items [d] lists: a key listed twice holds its
    last value. *)
Fixpoint dict_get (k : string) (d : list (string * value)) : option value :=
  match d with
  | [] => None
  | (k', v) :: d' =>
      match dict_get k d' with
      | Some w => Some w
      | None => if decide (k = k') then Some v else None
      end
  end.

(** The instance after [for key, value in kvs: setattr(item, key, value)]. *)
Definition apply_items (cls : Model) (kvs : list (string * value)) (inst : Instance)
    : Instance :=
  foldl (λ i '(k, v), set_attribute cls k v i) inst kvs.

(** What [as_dict] yields for the row stored under [p]. *)
Definition serialized (cls : Model) (entity : Z * gmap string value) : value :=
  VDict (map (λ c, (c, default VNone (<["pk" := VInt entity.1]> entity.2 !! c)))
             (columns cls)).

(** The persistent instance a query makes of a row. *)
Definition loaded (entity : Z * gmap string value) : Instance :=
  {| key := Some entity.1; cols := <["pk" := VInt entity.1]> entity.2; extra := ∅;
     dirty := [] |}.

(** The value of attribute [k] of the entity stored under [p], if there is
    such an entity and it has that attribute. *)
Definition stored_attr (t : gmap Z (gmap string value)) (p : Z) (k : string)
    : option value :=
  row ← t !! p; <["pk" := VInt p]> row !! k.

(** The key of the entity [p] once the items [kvs] are assigned on it: the
    body may name [pk] itself. *)
Definition key_after (p : Z) (kvs : list (string * value)) : Z :=
  match dict_get "pk" kvs with
  | Some (VInt q) => q
  | _ => p
  end.

Section Statements.
Context `{Platform}.

(** "For every integer id not present in storage, the handler returns 404
    with the body [{"error": "Item not found"}]": whenever the route's id
    reads as an integer that keys no row, [handle] answers [not_found]. *)
Definition missing_answers_404 (handle : Request → M Response) (request : Request)
    (st : State) : Prop :=
  ∀ id item_id,
    match_info request !! "id" = Some id →
    py_int id = Some item_id →
    table st !! item_id = None →
    (handle request st).1 = Ok not_found.

(** "A successful update persists every supplied field and leaves the others
    unchanged", for the body keys that satisfy [supplied]: whenever [handle],
    run through the wrapper on a request for entity [p] with the dict [kvs]
    as body, answers 200, the entity is stored afterwards, holds the body's
    value for every such key, and holds its earlier value for every attribute
    the body does not name. *)
Definition update_persists (supplied : string → Prop) (handle : Request → M Response)
    (request : Request) (w : World) : Prop :=
  ∀ response w' id p kvs,
    AbstractHandler_call handle request w = (Ok response, w') →
    status response = 200 →
    match_info request !! "id" = Some id →
    py_int id = Some p →
    json_body request = Some (VDict kvs) →
    let q := key_after p kvs in
    is_Some (storage w' !! q) ∧
    (∀ k v, supplied k → dict_get k kvs = Some v →
            stored_attr (storage w') q k = Some v) ∧
    (∀ k, dict_get k kvs = None →
          stored_attr (storage w') q k = stored_attr (storage w) p k).

(** What an update that is answered stores, as the code has it: whenever
    [handle], run through the wrapper on a request for entity [p] with the
    dict [kvs] as body, answers 200, the entity is stored afterwards under a
    key [q], which is [p] when the body does not name [pk] and the body's
    [pk] when that is an integer; for every other body key that names a
    column the entity holds the body's value as the column's type stores it;
    a key that names no column is not stored; and the entity holds its
    earlier value for every attribute the body does not name. *)
Definition update_stores (cls : Model) (handle : Request → M Response)
    (request : Request) (w : World) : Prop :=
  ∀ response w' id p kvs,
    AbstractHandler_call handle request w = (Ok response, w') →
    status response = 200 →
    match_info request !! "id" = Some id →
    py_int id = Some p →
    json_body request = Some (VDict kvs) →
    ∃ q,
      match dict_get "pk" kvs with
      | None => q = p
      | Some (VInt q') => q = q'
      | Some _ => True
      end ∧
      is_Some (storage w' !! q) ∧
      (∀ k v, k ∈ columns cls → k ≠ "pk" → dict_get k kvs = Some v →
              ∃ v', bind k v = Ok v' ∧ stored_attr (storage w') q k = Some v') ∧
      (∀ k, k ∉ columns cls →
            stored_attr (storage w') q k = stored_attr (storage w) p k) ∧
      (∀ k, dict_get k kvs = None →
            stored_attr (storage w') q k = stored_attr (storage w) p k).

End Statements.

(** ** Vocabulary of the further properties *)

(** The answer to a successful DELETE. *)
Definition no_content : Response :=
  {| status := 204; body := NoBody; content_type := None; headers := [] |}.

(** A session as [__call__] leaves it, after the calls [cs]. *)
Definition closed_after (cs : list SessionCall) : Session :=
  {| is_open := false; calls := cs ++ [CClose]; new := []; identity_map := [];
     deleted := [] |}.

(** The calls that change what a session will flush, or flush it. *)
Definition is_write (c : SessionCall) : bool :=
  match c with
  | CAdd | CDelete | CCommit | CRefresh => true
  | CQuery | CClose => false
  end.

(** [st'] differs from [st] by reads only: same table; same pending work,
    that is, the same instances to insert and to delete, every instance there
    was as it was, and every instance there is now and was not before
    unmodified and in the identity map; and the session was called with
    nothing that writes. *)
Definition reads_only (st st' : State) : Prop :=
  table st' = table st ∧
  new (session st') = new (session st) ∧
  deleted (session st') = deleted (session st) ∧
  (∃ cs, calls (session st') = calls (session st) ++ cs ∧
         Forall (λ c, is_write c = false) cs) ∧
  ∃ fresh, heap st' = heap st ++ fresh ∧
           Forall (λ inst, modified inst = false) fresh ∧
           identity_map (session st')
           = identity_map (session st) ++ seq (length (heap st)) (length fresh).

(** An action that only reads, however it ends. *)
Definition read_only_action {A : Type} (m : M A) : Prop :=
  ∀ st r st', m st = (r, st') → reads_only st st'.

(** A JSON object with exactly the model's columns as keys, in order. *)
Definition entity_body (cls : Model) (response : Response) : Prop :=
  ∃ d, body response = JsonBody (VDict d) ∧ d.*1 = columns cls ∧
       content_type response = Some "application/json".

(** The [handle] methods of the eight handler classes of [create_handler]. *)
Definition handle_methods `{Platform} : list (Model → Request → M Response) :=
  [CreateHandler_handle; RetrieveAllHandler_handle; ReadHandler_handle;
   UpdateHandler_handle; DeleteHandler_handle; PatchHandler_handle;
   OptionsHandler_handle; HeadHandler_handle].

(** * Properties *)

Ltac munfold :=
  unfold mbind, M_bind, mret, M_ret, raise, lift_result, log_call, modify,
    get_state, deref, set_instance, alloc in *.

Ltac mrun := repeat progress (munfold; simpl in *).

Section Properties.
Context `{Platform}.

Lemma bind_ok {A B : Type} (m : M A) (f : A → M B) st a st' :
  m st = (Ok a, st') → (m ≫= f) st = f a st'.
Proof. intros Hm. unfold mbind, M_bind. by rewrite Hm. Qed.

Lemma bind_raise {A B : Type} (m : M A) (f : A → M B) st e st' :
  m st = (Raise e, st') → (m ≫= f) st = (Raise e, st').
Proof. intros Hm. unfold mbind, M_bind. by rewrite Hm. Qed.

(** ** The wrapper releases the session *)

(** C1. Whatever [handle] does with the request — return a response or raise —
    [__call__] runs it on a session that is new and open, hands back that very
    outcome, and leaves the session closed: [close] is the last call it
    received. *)
Theorem call_closes_session (handle : Request → M Response) (request : Request)
    (w : World) :
  let st0 := {| table := storage w; session := SessionLocal; heap := [] |} in
  let '(r, st) := handle request st0 in
  (is_open (session st0) = true ∧ calls (session st0) = []) ∧
  ∃ s, AbstractHandler_call handle request w
         = (r, {| storage := table st; sessions := sessions w ++ [s] |}) ∧
       is_open s = false ∧
       calls s = calls (session st) ++ [CClose].
Proof.
  intros st0. destruct (handle request st0) as [r st] eqn:Hrun.
  split; [done|].
  exists (close (session st)). split; [|done].
  unfold AbstractHandler_call, try_finally. fold st0. by rewrite Hrun.
Qed.

(** No session stays open across a call. *)
Lemma call_leaves_no_session_open handle request w :
  Forall (λ s, is_open s = false) (sessions w) →
  Forall (λ s, is_open s = false) (sessions (AbstractHandler_call handle request w).2).
Proof.
  intros Hw. unfold AbstractHandler_call, try_finally.
  destruct (handle request _) as [r st]. simpl.
  apply Forall_app. split; [done|]. by constructor.
Qed.

(** ** Misses *)

(** C3, as the code has it. When the route's id reads as an integer that the
    engine can look up and that keys no row, each of the item handlers answers
    404 with the body [{"error": "Item not found"}]; the table and the
    instances are as before and the session has seen one query and nothing
    else. *)
Theorem missing_id_is_not_found (self : Model) (request : Request) (st : State)
    (id : string) (item_id : Z) :
  "pk" ∈ columns self →
  match_info request !! "id" = Some id →
  py_int id = Some item_id →
  key_error item_id = None →
  table st !! item_id = None →
  ReadHandler_handle self request st = (Ok not_found, only_queried st) ∧
  UpdateHandler_handle self request st = (Ok not_found, only_queried st) ∧
  PatchHandler_handle self request st = (Ok not_found, only_queried st) ∧
  DeleteHandler_handle self request st = (Ok not_found, only_queried st).
Proof.
  intros Hpk Hid Hint Hkey Hrow.
  unfold ReadHandler_handle, UpdateHandler_handle, PatchHandler_handle,
    DeleteHandler_handle, match_info_getitem, int, get_item_by_id.
  rewrite Hid. munfold. simpl. rewrite Hint. simpl.
  rewrite bool_decide_eq_true_2 by done. simpl. rewrite Hrow, Hkey.
  by repeat split.
Qed.

(** An id that keys no row and that the engine cannot look up gets no
    response: the query raises the engine's error. *)
Lemma unreachable_id_raises (self : Model) (request : Request) (st : State)
    (id : string) (item_id : Z) (e : exn) :
  "pk" ∈ columns self →
  match_info request !! "id" = Some id →
  py_int id = Some item_id →
  key_error item_id = Some e →
  table st !! item_id = None →
  ReadHandler_handle self request st = (Raise e, only_queried st) ∧
  UpdateHandler_handle self request st = (Raise e, only_queried st) ∧
  PatchHandler_handle self request st = (Raise e, only_queried st) ∧
  DeleteHandler_handle self request st = (Raise e, only_queried st).
Proof.
  intros Hpk Hid Hint Hkey Hrow.
  unfold ReadHandler_handle, UpdateHandler_handle, PatchHandler_handle,
    DeleteHandler_handle, match_info_getitem, int, get_item_by_id.
  rewrite Hid. munfold. simpl. rewrite Hint. simpl.
  rewrite bool_decide_eq_true_2 by done. simpl. rewrite Hrow, Hkey.
  by repeat split.
Qed.

(** ** Malformed ids *)

(** C10. When [int()] rejects the route's id, each of the item handlers
    raises [ValueError] before it touches anything, so it returns no response
    at all, and the wrapper lets the exception through. *)
Theorem malformed_id_raises (self : Model) (request : Request) (id : string) :
  match_info request !! "id" = Some id →
  py_int id = None →
  ∀ handle,
    handle ∈ [ReadHandler_handle; UpdateHandler_handle; PatchHandler_handle;
              DeleteHandler_handle] →
    (∀ st, handle self request st = (Raise ValueError, st)) ∧
    (∀ st response, (handle self request st).1 ≠ Ok response) ∧
    (∀ w, (AbstractHandler_call (handle self) request w).1 = Raise ValueError).
Proof.
  intros Hid Hint handle Hin.
  assert (Hraise : ∀ st, handle self request st = (Raise ValueError, st)).
  { intros st. repeat (apply elem_of_cons in Hin as [->|Hin]);
      [| | | |by apply elem_of_nil in Hin];
      unfold ReadHandler_handle, UpdateHandler_handle, PatchHandler_handle,
        DeleteHandler_handle, match_info_getitem, int;
      rewrite Hid; munfold; simpl; by rewrite Hint. }
  split; [done|]. split.
  - intros st response. by rewrite Hraise.
  - intros w. unfold AbstractHandler_call, try_finally. by rewrite Hraise.
Qed.

(** ** PUT and PATCH *)


(** ** OPTIONS *)

(** C9. [OptionsHandler] answers 200 with the fixed descriptor and leaves the
    state, session included, exactly as it found it. *)
Theorem options_is_static (self : Model) (request : Request) (st : State) :
  OptionsHandler_handle self request st =
  (Ok {| status := 200;
         body := JsonBody (VDict
           [("allowed_methods",
             VList [VStr "GET"; VStr "POST"; VStr "PUT"; VStr "DELETE";
                    VStr "PATCH"; VStr "OPTIONS"; VStr "HEAD"]);
            ("allowed_headers", VList [VStr "Content-Type"; VStr "Authorization"]);
            ("max_age", VInt 3600)]);
         content_type := Some "application/json";
         headers := [] |},
   st).
Proof. reflexivity. Qed.

(** ** Running the pieces *)

Lemma deref_lookup st item inst :
  heap st !! item = Some inst → deref item st = (Ok inst, st).
Proof.
  intros Hi. unfold deref. by rewrite (list_lookup_total_correct _ _ _ Hi).
Qed.

Lemma setattr_run cls st item inst k v :
  heap st !! item = Some inst →
  setattr cls item k v st
  = (Ok tt, with_heap (λ h, <[item := set_attribute cls k v inst]> h) st).
Proof.
  intros Hi. unfold setattr. erewrite bind_ok by by apply deref_lookup. done.
Qed.

Lemma for_each_setattr cls kvs : ∀ st item inst,
  heap st !! item = Some inst →
  for_each kvs (λ '(k, v), setattr cls item k v) st
  = (Ok tt, with_heap (λ h, <[item := apply_items cls kvs inst]> h) st).
Proof.
  induction kvs as [|[k v] kvs IH]; intros st item inst Hi.
  - simpl. unfold with_heap. rewrite list_insert_id by done. by destruct st.
  - simpl. erewrite bind_ok by by apply setattr_run.
    rewrite (IH _ item (set_attribute cls k v inst)).
    + unfold with_heap. simpl. by rewrite list_insert_insert_eq.
    + simpl. apply list_lookup_insert_eq. by eapply lookup_lt_Some.
Qed.

(** The constructor's loop, when every keyword is an attribute of the class. *)
Lemma constructor_accepts cls kwargs : ∀ st item inst,
  heap st !! item = Some inst →
  Forall (λ kv, hasattr cls kv.1 = true) kwargs →
  for_each kwargs
    (λ '(k, v), if hasattr cls k then setattr cls item k v else raise TypeError) st
  = (Ok tt, with_heap (λ h, <[item := apply_items cls kwargs inst]> h) st).
Proof.
  induction kwargs as [|[k v] kwargs IH]; intros st item inst Hi Hall.
  - simpl. unfold with_heap. rewrite list_insert_id by done. by destruct st.
  - apply Forall_cons in Hall as [Hk Hall]. simpl in Hk. simpl. rewrite Hk.
    erewrite bind_ok by by apply setattr_run.
    rewrite (IH _ item (set_attribute cls k v inst)); [|simpl|done].
    + unfold with_heap. simpl. by rewrite list_insert_insert_eq.
    + apply list_lookup_insert_eq. by eapply lookup_lt_Some.
Qed.

(** The constructor's loop, when some keyword is not: it raises, and neither
    the session nor the table has changed. *)
Lemma constructor_rejects cls kwargs : ∀ st item inst,
  heap st !! item = Some inst →
  Exists (λ kv, hasattr cls kv.1 = false) kwargs →
  ∃ st',
    for_each kwargs
      (λ '(k, v), if hasattr cls k then setattr cls item k v else raise TypeError) st
    = (Raise TypeError, st') ∧
    session st' = session st ∧ table st' = table st.
Proof.
  induction kwargs as [|[k v] kwargs IH]; intros st item inst Hi Hex.
  - by apply Exists_nil in Hex.
  - simpl. destruct (hasattr cls k) eqn:Hk.
    + apply Exists_cons in Hex as [Hex|Hex]; [simpl in Hex; congruence|].
      erewrite bind_ok by by apply setattr_run.
      destruct (IH (with_heap (λ h, <[item := set_attribute cls k v inst]> h) st)
                  item (set_attribute cls k v inst)) as (st' & Hrun & Hs & Ht);
        [|done|].
      * simpl. apply list_lookup_insert_eq. by eapply lookup_lt_Some.
      * exists st'. by rewrite Hrun.
    + exists st. by erewrite bind_raise.
Qed.

Lemma model_init_accepts cls kwargs st :
  Forall (λ kv, hasattr cls kv.1 = true) kwargs →
  model_init cls (VDict kwargs) st
  = (Ok (length (heap st)),
     with_heap (λ h, h ++ [apply_items cls kwargs
                             {| key := None; cols := ∅; extra := ∅;
                                dirty := [] |}]) st).
Proof.
  intros Hall. unfold model_init.
  erewrite bind_ok by reflexivity.
  erewrite bind_ok.
  - reflexivity.
  - erewrite constructor_accepts; [|simpl; by rewrite lookup_app_r, Nat.sub_diag|done].
    unfold with_heap. simpl.
    rewrite insert_app_r_alt, Nat.sub_diag by done. done.
Qed.

Lemma model_init_rejects cls kwargs st :
  Exists (λ kv, hasattr cls kv.1 = false) kwargs →
  ∃ st', model_init cls (VDict kwargs) st = (Raise TypeError, st') ∧
         session st' = session st ∧ table st' = table st.
Proof.
  intros Hex. unfold model_init.
  destruct (constructor_rejects cls kwargs
              (with_heap (λ h, h ++ [{| key := None; cols := ∅; extra := ∅;
                                        dirty := [] |}]) st)
              (length (heap st))
              {| key := None; cols := ∅; extra := ∅; dirty := [] |})
    as (st' & Hloop & Hs & Ht); [|done|].
  - simpl. by rewrite lookup_app_r, Nat.sub_diag.
  - exists st'. split; [|done].
    erewrite bind_ok by reflexivity. erewrite bind_raise; [done|].
    exact Hloop.
Qed.

(** ** Unknown fields on create *)

(** C2. When the body of a POST names a field the class has no attribute for,
    [CreateHandler] raises [TypeError] out of the model's constructor: it
    returns no response, hence no 400.  The session is left alone: through the
    wrapper the only call it ever receives is [close], and the table is
    unchanged. *)
Theorem create_unknown_field_raises (self : Model) (request : Request)
    (kwargs : list (string * value)) (k : string) (v : value) :
  json_body request = Some (VDict kwargs) →
  (k, v) ∈ kwargs →
  hasattr self k = false →
  (∀ st, ∃ st',
     CreateHandler_handle self request st = (Raise TypeError, st') ∧
     session st' = session st ∧ table st' = table st) ∧
  (∀ w, ∃ s,
     AbstractHandler_call (CreateHandler_handle self) request w
     = (Raise TypeError, {| storage := storage w; sessions := sessions w ++ [s] |}) ∧
     calls s = [CClose]).
Proof.
  intros Hbody Hin Hk.
  assert (Hrun : ∀ st, ∃ st',
     CreateHandler_handle self request st = (Raise TypeError, st') ∧
     session st' = session st ∧ table st' = table st).
  { intros st. unfold CreateHandler_handle, get_request_json. rewrite Hbody.
    destruct (model_init_rejects self kwargs st) as (st' & Hinit & Hs & Ht).
    - apply Exists_exists. by exists (k, v).
    - exists st'. split; [|done].
      erewrite bind_ok by reflexivity. by erewrite bind_raise. }
  split; [done|].
  intros w. unfold AbstractHandler_call, try_finally.
  destruct (Hrun {| table := storage w; session := SessionLocal; heap := [] |})
    as (st' & -> & Hs & Ht).
  simpl. exists (close (session st')). rewrite Ht, Hs. done.
Qed.

Lemma bind_inv {A B : Type} (m : M A) (f : A → M B) st b st2 :
  (m ≫= f) st = (Ok b, st2) →
  ∃ a st1, m st = (Ok a, st1) ∧ f a st1 = (Ok b, st2).
Proof.
  unfold mbind, M_bind. destruct (m st) as [[a|e] st1]; [eauto|done].
Qed.

Lemma apply_items_key cls kvs : ∀ inst, key (apply_items cls kvs inst) = key inst.
Proof.
  unfold apply_items. induction kvs as [|[k v] kvs IH]; intros inst; [done|].
  simpl. rewrite IH. unfold set_attribute. by case_bool_decide.
Qed.

Lemma dict_get_map (f : string → value) (k : string) (l : list string) :
  dict_get k (map (λ c, (c, f c)) l)
  = if bool_decide (k ∈ l) then Some (f k) else None.
Proof.
  induction l as [|c l IH]; [done|].
  simpl. rewrite IH. case_bool_decide as Hl.
  - rewrite bool_decide_eq_true_2; [done|by right].
  - destruct (decide (k = c)) as [->|Hne].
    + rewrite bool_decide_eq_true_2; [done|by left].
    + rewrite bool_decide_eq_false_2; [done|].
      intros [?|?]%elem_of_cons; done.
Qed.

(** [add_and_commit_item] on the one pending instance of a session that holds
    nothing else. *)
Lemma add_and_commit_new t inst calls0 r st' :
  key inst = None →
  add_and_commit_item 0%nat
    {| table := t;
       session := {| is_open := true; calls := calls0; new := [];
                     identity_map := []; deleted := [] |};
       heap := [inst] |} = (Ok r, st') →
  ∃ p row,
    (cols inst !! "pk" = Some (VInt p) ∨
     (p = generated_pk t ∧ (cols inst !! "pk" = None ∨ cols inst !! "pk" = Some VNone))) ∧
    bind_columns (dirty inst) (cols inst) ∅ = Ok row ∧
    t !! p = None ∧ r = 0%nat ∧
    st' = {| table := <[p := <["pk" := VInt p]> row]> t;
             session := {| is_open := true; calls := calls0 ++ [CAdd; CCommit; CRefresh];
                           new := []; identity_map := [0%nat]; deleted := [] |};
             heap := [{| key := Some p; cols := <["pk" := VInt p]> row;
                         extra := extra inst; dirty := [] |}] |}.
Proof.
  intros Hkey Hrun.
  unfold add_and_commit_item, add, commit, refresh, flush, flush_insert in Hrun.
  mrun. rewrite Hkey in Hrun. mrun.
  unfold with_session, with_table, with_heap, record_call in Hrun. simpl in Hrun.
  destruct (bind_columns (dirty inst) (cols inst) ∅) as [row|e] eqn:Hbind.
  2: { destruct (cols inst !! "pk") as [[]|]; simpl in Hrun; done. }
  destruct (cols inst !! "pk") as [[]|] eqn:Hpk; simpl in Hrun; try done.
  all: match type of Hrun with
       | context [@lookup _ _ _ _ ?p ?t0] =>
           destruct (t0 !! p) eqn:Hp; simpl in Hrun; [done|]; exists p, row
       end.
  all: rewrite lookup_insert_eq in Hrun; simpl in Hrun;
    rewrite insert_insert_eq in Hrun.
  all: injection Hrun as <- <-; rewrite <- !app_assoc; simpl; eauto 10.
Qed.

(** A hit on a session that holds nothing yet loads the row as instance 0. *)
Lemma get_item_by_id_fresh self t p row :
  "pk" ∈ columns self →
  t !! p = Some row →
  get_item_by_id self p (blank_state t)
  = (Ok (Some 0%nat),
     {| table := t;
        session := {| is_open := true; calls := [CQuery]; new := [];
                      identity_map := [0%nat]; deleted := [] |};
        heap := [{| key := Some p; cols := <["pk" := VInt p]> row; extra := ∅;
                    dirty := [] |}] |}).
Proof.
  intros Hpk Hrow. unfold get_item_by_id, blank_state. mrun.
  rewrite bool_decide_eq_true_2 by done. simpl. rewrite Hrow. reflexivity.
Qed.

Lemma json_response_entity self st item inst code :
  heap st !! item = Some inst →
  json_response self (Entity item) code st
  = match extra inst !! "as_dict" with
    | Some _ => (Raise TypeError, st)
    | None =>
        (Ok (web_json_response
               (VDict (map (λ c, (c, default VNone (cols inst !! c))) (columns self)))
               code), st)
    end.
Proof.
  intros Hi. unfold json_response, as_dict. mrun.
  rewrite (list_lookup_total_correct _ _ _ Hi).
  by destruct (extra inst !! "as_dict").
Qed.

(** ** Create, then read *)

(** C4. When a POST through the wrapper answers, the answer has status 201,
    its body is the stored entity serialised, the session received [add],
    [commit], [refresh] and then [close]; and a GET on the key that body
    carries as [pk] answers 200 with the very same body. *)
Theorem created_entity_is_read_back (self : Model) (request : Request) (w w' : World)
    (response : Response) :
  "pk" ∈ columns self →
  AbstractHandler_call (CreateHandler_handle self) request w = (Ok response, w') →
  status response = 201 ∧
  (∃ s, sessions w' = sessions w ++ [s] ∧ calls s = [CAdd; CCommit; CRefresh; CClose]) ∧
  ∃ p entity row,
    body response = JsonBody (VDict entity) ∧
    dict_get "pk" entity = Some (VInt p) ∧
    storage w' !! p = Some row ∧
    VDict entity = serialized self (p, row) ∧
    ∀ request' id,
      match_info request' !! "id" = Some id →
      py_int id = Some p →
      ∃ w'',
        AbstractHandler_call (ReadHandler_handle self) request' w'
        = (Ok {| status := 200; body := body response;
                 content_type := Some "application/json"; headers := [] |}, w'').
Proof.
  intros Hpk Hcall. unfold AbstractHandler_call, try_finally in Hcall.
  destruct (CreateHandler_handle self request _) as [r st] eqn:Hrun.
  simpl in Hcall. injection Hcall as -> <-.
  unfold CreateHandler_handle, get_request_json in Hrun.
  destruct (json_body request) as [data|]; [|done].
  erewrite bind_ok in Hrun by reflexivity.
  destruct data as [| | | | |kwargs]; try done.
  destruct (Forall_Exists_dec (λ kv, hasattr self kv.1 = true)
              (λ kv : string * value, hasattr self kv.1 = false)
              (λ kv, match hasattr self kv.1 as b
                       return {b = true} + {b = false} with
                     | true => left eq_refl | false => right eq_refl end) kwargs)
    as [Hall|Hex].
  2: { destruct (model_init_rejects self kwargs
                   {| table := storage w; session := SessionLocal; heap := [] |} Hex)
         as (st' & Hinit & _).
       erewrite bind_raise in Hrun by exact Hinit. done. }
  erewrite bind_ok in Hrun by by apply model_init_accepts.
  unfold with_heap, SessionLocal in Hrun. simpl in Hrun.
  set (inst := apply_items self kwargs _) in Hrun.
  apply bind_inv in Hrun as (r1 & st1 & Hadd & Hrun).
  apply add_and_commit_new in Hadd as (p & row & _ & _ & Hfree & -> & ->);
    [|by apply apply_items_key].
  erewrite json_response_entity in Hrun by reflexivity. simpl in Hrun.
  destruct (extra inst !! "as_dict"); [done|].
  injection Hrun as <- <-. simpl.
  split; [done|]. split; [by eexists|].
  eexists p, _, (<["pk" := VInt p]> row). split; [reflexivity|].
  split.
  { rewrite dict_get_map, bool_decide_eq_true_2 by done.
    by rewrite lookup_insert_eq. }
  split; [apply lookup_insert_eq|].
  split.
  { unfold serialized. simpl. by rewrite insert_insert_eq. }
  intros request' id Hid Hint. eexists.
  unfold AbstractHandler_call, try_finally, ReadHandler_handle, int. simpl.
  rewrite Hid, Hint.
  erewrite bind_ok by reflexivity.
  erewrite bind_ok by (apply get_item_by_id_fresh; [done|apply lookup_insert_eq]).
  cbv beta iota.
  erewrite json_response_entity by reflexivity. simpl.
  rewrite lookup_empty, insert_insert_eq. reflexivity.
Qed.

Lemma apply_items_cols cls kvs k : ∀ inst,
  cols (apply_items cls kvs inst) !! k
  = if bool_decide (k ∈ columns cls) then
      match dict_get k kvs with
      | Some v => Some v
      | None => cols inst !! k
      end
    else cols inst !! k.
Proof.
  unfold apply_items.
  induction kvs as [|[k' v'] kvs IH]; intros inst; simpl.
  - by case_bool_decide.
  - rewrite IH. unfold set_attribute.
    case_bool_decide as Hk; case_bool_decide as Hk'; simpl; try done.
    + destruct (dict_get k kvs); [done|].
      destruct (decide (k = k')) as [->|Hne].
      * by rewrite lookup_insert_eq.
      * by rewrite lookup_insert_ne.
    + destruct (dict_get k kvs); [done|].
      destruct (decide (k = k')) as [->|Hne]; done.
    + rewrite lookup_insert_ne; [done|]. by intros ->.
Qed.

Lemma dict_get_None (k : string) (d : list (string * value)) :
  dict_get k d = None ↔ k ∉ d.*1.
Proof.
  induction d as [|[k' v] d IH]; simpl.
  - split; [intros _; apply not_elem_of_nil|done].
  - rewrite not_elem_of_cons, <- IH.
    destruct (dict_get k d); [by split; [|intros [_ ?]]|].
    destruct (decide (k = k')) as [->|Hne]; [by split; [|intros [? _]]|done].
Qed.

Lemma apply_items_dirty cls kvs : ∀ inst,
  dirty (apply_items cls kvs inst)
  = dirty inst ++ filter (λ k, k ∈ columns cls) kvs.*1.
Proof.
  unfold apply_items.
  induction kvs as [|[k v] kvs IH]; intros inst; simpl.
  - by rewrite app_nil_r.
  - rewrite IH. unfold set_attribute. rewrite filter_cons. simpl.
    case_bool_decide as Hk.
    + rewrite decide_True by done. simpl. by rewrite <- app_assoc.
    + by rewrite decide_False.
Qed.

Lemma modified_false inst : modified inst = false ↔ dirty inst = [].
Proof.
  unfold modified. rewrite bool_decide_eq_false. split.
  - intros Hd. by destruct (dirty inst); [|destruct Hd].
  - intros ->. naive_solver.
Qed.

Lemma apply_items_modified cls kvs : ∀ inst,
  modified inst = true → modified (apply_items cls kvs inst) = true.
Proof.
  intros inst Hm. unfold modified in *. apply bool_decide_eq_true.
  apply bool_decide_eq_true in Hm. rewrite apply_items_dirty.
  by destruct (dirty inst).
Qed.

Lemma apply_items_unmodified cls kvs : ∀ inst,
  modified (apply_items cls kvs inst) = false →
  ∀ k, k ∈ columns cls → dict_get k kvs = None.
Proof.
  intros inst Hm k Hk. apply modified_false in Hm.
  rewrite apply_items_dirty in Hm. apply app_eq_nil in Hm as [_ Hm].
  apply dict_get_None. intros Hin.
  assert (k ∈ filter (λ k, k ∈ columns cls) kvs.*1) as Hf
    by by apply list_elem_of_filter.
  rewrite Hm in Hf. by apply elem_of_nil in Hf.
Qed.

(** A column the loop has set is a column the body names, and conversely. *)
Lemma apply_items_dirty_elem cls kvs inst k :
  dirty inst = [] →
  k ∈ dirty (apply_items cls kvs inst) ↔ k ∈ columns cls ∧ is_Some (dict_get k kvs).
Proof.
  intros Hd. rewrite apply_items_dirty, Hd. simpl.
  rewrite list_elem_of_filter.
  assert (is_Some (dict_get k kvs) ↔ k ∈ kvs.*1) as ->; [|done].
  rewrite <- not_eq_None_Some, dict_get_None.
  destruct (decide (k ∈ kvs.*1)); naive_solver.
Qed.

(** *** What a statement writes *)

Lemma bind_columns_lookup set attrs : ∀ row r,
  bind_columns set attrs row = Ok r →
  ∀ c,
    (c ∈ set → c ≠ "pk" →
     ∃ v, bind c (default VNone (attrs !! c)) = Ok v ∧ r !! c = Some v) ∧
    (c ∉ set ∨ c = "pk" → r !! c = row !! c).
Proof.
  induction set as [|c0 set IH]; intros row r Hrun c; simpl in Hrun.
  - injection Hrun as <-. split; [by intros ?%elem_of_nil|done].
  - destruct (decide (c0 = "pk")) as [->|Hc0].
    + destruct (IH _ _ Hrun c) as [Hin Hout]. split.
      * intros [->|Hc]%elem_of_cons Hne; [done|by apply Hin].
      * intros [Hc| ->]; [|by apply Hout; right].
        apply Hout. left. intros ?. apply Hc. by right.
    + destruct (bind c0 (default VNone (attrs !! c0))) as [v0|e] eqn:Hb; [|done].
      destruct (IH _ _ Hrun c) as [Hin Hout]. split.
      * intros Hc Hne. destruct (decide (c ∈ set)) as [Hs|Hs]; [by apply Hin|].
        apply elem_of_cons in Hc as [->|Hc]; [|done].
        exists v0. split; [done|]. rewrite Hout by by left.
        apply lookup_insert_eq.
      * intros [Hc| ->].
        -- rewrite Hout by (left; intros ?; apply Hc; by right).
           apply lookup_insert_ne. intros ->. apply Hc. by left.
        -- rewrite Hout by by right. by apply lookup_insert_ne.
Qed.

Lemma bind_columns_ok set attrs : ∀ row,
  (∀ c, c ∈ set → c ≠ "pk" → ∃ v, bind c (default VNone (attrs !! c)) = Ok v) →
  ∃ r, bind_columns set attrs row = Ok r.
Proof.
  induction set as [|c0 set IH]; intros row Hall; simpl; [by eexists|].
  destruct (decide (c0 = "pk")) as [->|Hc0].
  - apply IH. intros c Hc. apply Hall. by right.
  - destruct (Hall c0) as [v0 ->]; [by left|done|].
    apply IH. intros c Hc. apply Hall. by right.
Qed.

Lemma bind_columns_ext set attrs attrs' : ∀ row,
  (∀ c, c ∈ set → attrs !! c = attrs' !! c) →
  bind_columns set attrs row = bind_columns set attrs' row.
Proof.
  induction set as [|c0 set IH]; intros row Heq; simpl; [done|].
  rewrite <- (Heq c0) by by left.
  destruct (decide (c0 = "pk")).
  - apply IH. intros c Hc. apply Heq. by right.
  - destruct (bind c0 _); [|done]. apply IH. intros c Hc. apply Heq. by right.
Qed.

(** Writing the same columns again, over what the first statement wrote and
    with [pk] set, changes nothing. *)
Lemma bind_columns_again set attrs row r x :
  bind_columns set attrs row = Ok r →
  bind_columns set attrs (<["pk" := x]> r) = Ok (<["pk" := x]> r).
Proof.
  intros Hrun.
  destruct (bind_columns_ok set attrs (<["pk" := x]> r)) as [r2 Hrun2].
  { intros c Hc Hne. destruct (bind_columns_lookup _ _ _ _ Hrun c) as [Hin _].
    destruct (Hin Hc Hne) as (v & Hv & _). by exists v. }
  rewrite Hrun2. f_equal. apply map_eq. intros c.
  destruct (bind_columns_lookup _ _ _ _ Hrun c) as [Hin _].
  destruct (bind_columns_lookup _ _ _ _ Hrun2 c) as [Hin2 Hout2].
  destruct (decide (c ∈ set ∧ c ≠ "pk")) as [[Hc Hne]|Hno].
  - destruct (Hin Hc Hne) as (v & Hv & Hr).
    destruct (Hin2 Hc Hne) as (v2 & Hv2 & Hr2).
    rewrite Hr2, lookup_insert_ne, Hr by done. congruence.
  - apply Hout2. destruct (decide (c ∈ set)); [|by left].
    right. destruct (decide (c = "pk")); [done|]. destruct Hno. done.
Qed.

Lemma get_item_by_id_miss self st p :
  "pk" ∈ columns self →
  table st !! p = None →
  get_item_by_id self p st
  = (match key_error p with Some e => Raise e | None => Ok None end, only_queried st).
Proof.
  intros Hpk Hrow. unfold get_item_by_id. mrun.
  rewrite bool_decide_eq_true_2 by done. simpl. rewrite Hrow.
  by destruct (key_error p).
Qed.

Lemma get_item_by_id_no_pk self st p :
  "pk" ∉ columns self →
  get_item_by_id self p st = (Raise AttributeError, only_queried st).
Proof.
  intros Hpk. unfold get_item_by_id. mrun.
  by rewrite bool_decide_eq_false_2 by done.
Qed.

(** [add_and_commit_item] on the one persistent instance of a session that
    holds nothing else. *)
Lemma add_and_commit_persistent t inst k calls0 r st' :
  key inst = Some k →
  add_and_commit_item 0%nat
    {| table := t;
       session := {| is_open := true; calls := calls0; new := [];
                     identity_map := [0%nat]; deleted := [] |};
       heap := [inst] |} = (Ok r, st') →
  r = 0%nat ∧
  ∃ q c t',
    st' = {| table := t';
             session := {| is_open := true; calls := calls0 ++ [CAdd; CCommit; CRefresh];
                           new := []; identity_map := [0%nat]; deleted := [] |};
             heap := [{| key := Some q; cols := <["pk" := VInt q]> c;
                         extra := extra inst; dirty := [] |}] |} ∧
    t' !! q = Some c ∧
    ((modified inst = false ∧ q = k ∧ t' = t) ∨
     (modified inst = true ∧ cols inst !! "pk" = Some (VInt q) ∧
      (q = k ∨ t !! q = None) ∧
      ∃ old row,
        t !! k = Some old ∧
        bind_columns (dirty inst) (cols inst) old = Ok row ∧
        c = <["pk" := VInt q]> row ∧ t' = <[q := c]> (delete k t))).
Proof.
  intros Hkey Hrun.
  unfold add_and_commit_item, add, commit, refresh, flush, flush_update in Hrun.
  mrun. rewrite Hkey in Hrun. mrun. rewrite Hkey in Hrun.
  unfold with_session, with_table, with_heap, record_call in Hrun. simpl in Hrun.
  destruct (modified inst) eqn:Hmod; simpl in Hrun.
  - destruct (t !! k) as [old|] eqn:Hold; simpl in Hrun; [|done].
    destruct (bind_columns (dirty inst) (cols inst) old) as [row|e] eqn:Hbind;
      simpl in Hrun; [|done].
    destruct (cols inst !! "pk") as [[| |q| | |]|] eqn:Hpk; simpl in Hrun; try done.
    case_bool_decide as Hq; simpl in Hrun; [done|].
    rewrite lookup_insert_eq in Hrun. simpl in Hrun.
    injection Hrun as <- <-. split; [done|].
    exists q, (<["pk" := VInt q]> row), (<[q := <["pk" := VInt q]> row]> (delete k t)).
    rewrite <- !app_assoc, insert_insert_eq. simpl. split; [done|].
    split; [apply lookup_insert_eq|]. right.
    split; [done|]. split; [done|]. split; [|by eauto 10].
    destruct (decide (q = k)) as [->|Hne]; [by left|right].
    destruct (t !! q) eqn:Htq; [|done]. destruct Hq. eauto.
  - rewrite Hkey in Hrun. simpl in Hrun.
    destruct (t !! k) as [row|] eqn:Hrow; simpl in Hrun; [|done].
    injection Hrun as <- <-. split; [done|].
    exists k, row, t. rewrite <- !app_assoc. simpl. eauto 10.
Qed.

(** Everything a PUT that is answered 200 has done. *)
Lemma update_call_inv self request w response w' :
  AbstractHandler_call (UpdateHandler_handle self) request w = (Ok response, w') →
  status response = 200 →
  ∃ id p old kvs row,
    match_info request !! "id" = Some id ∧
    py_int id = Some p ∧
    "pk" ∈ columns self ∧
    storage w !! p = Some old ∧
    json_body request = Some (VDict kvs) ∧
    let inst := apply_items self kvs (loaded (p, old)) in
    let q := key_after p kvs in
    cols inst !! "pk" = Some (VInt q) ∧
    extra inst !! "as_dict" = None ∧
    bind_columns (dirty inst) (cols inst) old = Ok row ∧
    w' = {| storage := if modified inst then <[q := <["pk" := VInt q]> row]>
                                               (delete p (storage w))
                       else storage w;
            sessions := sessions w
                        ++ [closed_after [CQuery; CAdd; CCommit; CRefresh]] |} ∧
    response = {| status := 200; body := JsonBody (serialized self (q, row));
                  content_type := Some "application/json"; headers := [] |}.
Proof.
  intros Hcall Hstatus. unfold AbstractHandler_call, try_finally in Hcall.
  destruct (UpdateHandler_handle self request _) as [r st] eqn:Hrun.
  simpl in Hcall. injection Hcall as -> <-.
  unfold UpdateHandler_handle, match_info_getitem, int in Hrun.
  destruct (match_info request !! "id") as [id|] eqn:Hid; [|done].
  erewrite bind_ok in Hrun by reflexivity.
  destruct (py_int id) as [p|] eqn:Hint; [|done].
  erewrite bind_ok in Hrun by reflexivity.
  destruct (decide ("pk" ∈ columns self)) as [Hpk|Hpk].
  2: { by erewrite bind_raise in Hrun by by apply get_item_by_id_no_pk. }
  destruct (storage w !! p) as [old|] eqn:Hold.
  2: { destruct (key_error p) as [e|] eqn:Hkey.
       - erewrite bind_raise in Hrun; [done|].
         rewrite get_item_by_id_miss, Hkey by done. reflexivity.
       - erewrite bind_ok in Hrun.
         2: { rewrite get_item_by_id_miss, Hkey by done. reflexivity. }
         injection Hrun as <- <-. done. }
  erewrite bind_ok in Hrun by by apply get_item_by_id_fresh.
  cbv beta iota in Hrun. unfold get_request_json in Hrun.
  destruct (json_body request) as [data|] eqn:Hbody; [|done].
  erewrite bind_ok in Hrun by reflexivity.
  destruct data as [| | | | |kvs]; try done.
  erewrite bind_ok in Hrun by reflexivity.
  erewrite bind_ok in Hrun by (apply for_each_setattr; reflexivity).
  unfold with_heap in Hrun. simpl in Hrun.
  change {| key := Some p; cols := <["pk" := VInt p]> old; extra := ∅;
            dirty := [] |} with (loaded (p, old)) in Hrun.
  set (inst := apply_items self kvs (loaded (p, old))) in *.
  apply bind_inv in Hrun as (r1 & st1 & Hadd & Hrun).
  apply (add_and_commit_persistent _ _ p) in Hadd
    as (-> & q' & c & t' & -> & Hq' & Hcase); [|by apply apply_items_key].
  erewrite json_response_entity in Hrun by reflexivity. simpl in Hrun.
  destruct (extra inst !! "as_dict") eqn:Hextra; [done|].
  injection Hrun as <- <-. simpl.
  assert (Hcols : cols inst !! "pk"
            = match dict_get "pk" kvs with
              | Some v => Some v
              | None => Some (VInt p)
              end).
  { unfold inst. rewrite apply_items_cols, bool_decide_eq_true_2 by done.
    simpl. by rewrite lookup_insert_eq. }
  destruct Hcase as [(Hmod & -> & ->)|(Hmod & Hpkv & _ & old' & row & Hold' & Hbind & -> & ->)].
  - pose proof (apply_items_unmodified _ _ _ Hmod "pk" Hpk) as Hnone.
    apply modified_false in Hmod as Hdirty. fold inst in Hdirty.
    exists id, p, old, kvs, old. do 5 (split; [done|]).
    cbv zeta. fold inst.
    assert (key_after p kvs = p) as -> by (unfold key_after; by rewrite Hnone).
    rewrite Hmod, Hcols, Hnone, Hdirty. do 3 (split; [done|]).
    split; [done|].
    unfold serialized. simpl. rewrite Hold in Hq'. by injection Hq' as <-.
  - assert (old' = old) as -> by congruence.
    exists id, p, old, kvs, row. do 5 (split; [done|]).
    cbv zeta. fold inst.
    assert (key_after p kvs = q') as ->.
    { unfold key_after. rewrite Hcols in Hpkv.
      destruct (dict_get "pk" kvs) as [v|]; by injection Hpkv as ->. }
    rewrite Hmod. do 3 (split; [done|]). split; [done|].
    unfold serialized. simpl. by rewrite insert_insert_eq.
Qed.

(** ** What an update persists *)

(** C8, as the code has it. After a PUT or a PATCH that answers 200, the
    entity is stored under its key (the one the body assigns to [pk], else the
    one of the route); every other body key that names a column of the model
    holds there the body's value as the column's type stores it, which is the
    body's value only where the type stores it as given; a body key that names
    no column is not stored; and every attribute the body does not name holds
    the value it had before the request. *)
Theorem update_persists_supplied_columns (self : Model) (request : Request) (w : World) :
  update_stores self (UpdateHandler_handle self) request w ∧
  update_stores self (PatchHandler_handle self) request w.
Proof.
  cut (update_stores self (UpdateHandler_handle self) request w);
    [intros Hupdate; split; exact Hupdate|].
  intros response w' id p kvs Hcall Hstatus Hid Hint Hbody.
  apply update_call_inv in Hcall
    as (id' & p' & old & kvs' & row & Hid' & Hint' & Hpk & Hold & Hbody' & Hpkv & _
        & Hbind & -> & _); [|done].
  assert (id' = id) as -> by congruence.
  assert (p' = p) as -> by congruence.
  assert (kvs' = kvs) as -> by congruence.
  set (q := key_after p kvs) in *. exists q. simpl.
  split; [unfold q, key_after; by destruct (dict_get "pk" kvs) as [[]|]|].
  set (inst := apply_items self kvs (loaded (p, old))) in *.
  assert (Hcols : ∀ k, cols inst !! k
            = if bool_decide (k ∈ columns self) then
                match dict_get k kvs with
                | Some v => Some v
                | None => <["pk" := VInt p]> old !! k
                end
              else <["pk" := VInt p]> old !! k)
    by (intros k; apply apply_items_cols).
  assert (Hdirty : ∀ k, k ∈ dirty inst ↔ k ∈ columns self ∧ is_Some (dict_get k kvs))
    by (intros k; by apply apply_items_dirty_elem).
  destruct (modified inst) eqn:Hmod.
  - assert (Hattr : ∀ k, stored_attr (<[q := <["pk" := VInt q]> row]>
                                        (delete p (storage w))) q k
                         = <["pk" := VInt q]> row !! k).
    { intros k. unfold stored_attr. rewrite lookup_insert_eq. simpl.
      by rewrite insert_insert_eq. }
    assert (Hkeep : ∀ k, (k ∉ columns self ∨ dict_get k kvs = None) →
              stored_attr (<[q := <["pk" := VInt q]> row]> (delete p (storage w))) q k
              = stored_attr (storage w) p k).
    { intros k Hk. rewrite Hattr. unfold stored_attr. rewrite Hold. simpl.
      destruct (decide (k = "pk")) as [->|Hne].
      - rewrite !lookup_insert_eq. destruct Hk as [Hk|Hk]; [done|].
        rewrite Hcols, bool_decide_eq_true_2, Hk, lookup_insert_eq in Hpkv by done.
        done.
      - rewrite !lookup_insert_ne by done.
        destruct (bind_columns_lookup _ _ _ _ Hbind k) as [_ Hout].
        apply Hout. left. rewrite Hdirty. intros [Hc [v Hv]].
        destruct Hk as [Hk|Hk]; [done|congruence]. }
    split; [by rewrite lookup_insert_eq|]. split; [|split].
    + intros k v Hk Hne Hget. rewrite Hattr.
      destruct (bind_columns_lookup _ _ _ _ Hbind k) as [Hin _].
      destruct Hin as (v' & Hv' & Hr); [apply Hdirty; eauto|done|].
      rewrite Hcols, bool_decide_eq_true_2, Hget in Hv' by done. simpl in Hv'.
      exists v'. by rewrite lookup_insert_ne.
    + intros k Hk. apply Hkeep. by left.
    + intros k Hk. apply Hkeep. by right.
  - pose proof (apply_items_unmodified _ _ _ Hmod) as Hnone.
    assert (q = p) as -> by (unfold q, key_after; by rewrite Hnone).
    split; [by rewrite Hold|]. split; [|done].
    intros k v Hk _ Hget. by rewrite Hnone in Hget.
Qed.

(** ** The collection *)

(** Loading rows no instance of the identity map stands for appends one new
    instance per row. *)
Lemma load_all l : ∀ st,
  NoDup l.*1 →
  (∀ r inst, r ∈ identity_map (session st) → heap st !! r = Some inst →
             ∀ p, key inst = Some p → p ∉ l.*1) →
  comprehension l (λ '(p, row), load p row) st
  = (Ok (seq (length (heap st)) (length l)),
     {| table := table st;
        session :=
          {| is_open := is_open (session st); calls := calls (session st);
             new := new (session st);
             identity_map := identity_map (session st)
                             ++ seq (length (heap st)) (length l);
             deleted := deleted (session st) |};
        heap := heap st ++ map loaded l |}).
Proof.
  induction l as [|[p row] l IH]; intros st Hdup Hfresh.
  - simpl. rewrite !app_nil_r. by destruct st as [? [] ?].
  - simpl in Hdup. apply NoDup_cons in Hdup as [Hp Hdup]. simpl.
    assert (Hload : load p row st
              = (Ok (length (heap st)),
                 {| table := table st;
                    session :=
                      {| is_open := is_open (session st); calls := calls (session st);
                         new := new (session st);
                         identity_map := identity_map (session st) ++ [length (heap st)];
                         deleted := deleted (session st) |};
                    heap := heap st ++ [loaded (p, row)] |})).
    { unfold load.
      destruct (List.find _ _) as [r|] eqn:Hfind; [|done].
      apply find_some in Hfind as [Hr Hkey].
      apply bool_decide_eq_true_1 in Hkey.
      destruct (heap st !! r) as [inst|] eqn:Hinst; [|done].
      injection Hkey as Hkey.
      exfalso. eapply (Hfresh r inst); [by apply list_elem_of_In|done|done|].
      simpl. by left. }
    erewrite bind_ok by exact Hload.
    erewrite bind_ok.
    2: { apply IH; [done|]. simpl. intros r inst Hr Hinst q Hq.
         apply elem_of_app in Hr as [Hr|Hr].
         - destruct (decide (r < length (heap st))%nat) as [Hlt|Hge].
           + rewrite lookup_app_l in Hinst by done.
             intros Hin. eapply (Hfresh r inst); [done|done|done|]. simpl. by right.
           + apply lookup_lt_Some in Hinst as Hlen.
             rewrite length_app in Hlen. simpl in Hlen.
             assert (r = length (heap st)) as -> by lia.
             rewrite lookup_app_r, Nat.sub_diag in Hinst by done.
             injection Hinst as <-. simpl in Hq. injection Hq as <-. done.
         - apply list_elem_of_singleton in Hr as ->.
           rewrite lookup_app_r, Nat.sub_diag in Hinst by done.
           injection Hinst as <-. simpl in Hq. injection Hq as <-. done. }
    simpl. rewrite length_app. simpl. rewrite Nat.add_1_r, <- !app_assoc. done.
Qed.

Lemma as_dict_loaded self st item entity :
  heap st !! item = Some (loaded entity) →
  as_dict self item st = (Ok (serialized self entity), st).
Proof.
  intros Hi. unfold as_dict.
  erewrite bind_ok by by apply deref_lookup.
  simpl. by rewrite lookup_empty.
Qed.

Lemma as_dict_all self l : ∀ st h,
  heap st = h ++ map loaded l →
  comprehension (seq (length h) (length l)) (as_dict self) st
  = (Ok (map (serialized self) l), st).
Proof.
  induction l as [|entity l IH]; intros st h Hheap; [done|].
  simpl. erewrite bind_ok.
  2: { apply as_dict_loaded. rewrite Hheap, lookup_app_r, Nat.sub_diag by done. done. }
  erewrite bind_ok; [done|].
  replace (S (length h)) with (length (h ++ [loaded entity]))
    by (rewrite length_app; simpl; lia).
  apply IH. by rewrite Hheap, <- app_assoc.
Qed.

(** [query_all] on a session that holds nothing yet, followed by the
    comprehension over [as_dict]. *)
Lemma query_all_serialized self t :
  (items ← query_all; comprehension items (as_dict self)) (blank_state t)
  = (Ok (map (serialized self) (map_to_list t)),
     {| table := t;
        session := {| is_open := true; calls := [CQuery]; new := [];
                      identity_map := seq 0 (length (map_to_list t)); deleted := [] |};
        heap := map loaded (map_to_list t) |}).
Proof.
  unfold query_all.
  erewrite bind_ok.
  2: { erewrite bind_ok by reflexivity. erewrite bind_ok by reflexivity.
       apply load_all; [apply NoDup_fst_map_to_list|].
       simpl. intros r inst Hr. by apply elem_of_nil in Hr. }
  simpl. by apply (as_dict_all self _ _ []).
Qed.

(** ** The collection branch of [ReadHandler] *)

(** C5. With no [id] in the match info, [ReadHandler] hands the list of
    serialised entities to [json_response], which calls [as_dict] on it: the
    handler raises [AttributeError] and answers nothing, from any state and
    through the wrapper. *)
Theorem read_collection_raises (self : Model) (request : Request) :
  match_info request !! "id" = None →
  (∀ st response, (ReadHandler_handle self request st).1 ≠ Ok response) ∧
  (∀ w, (AbstractHandler_call (ReadHandler_handle self) request w).1
        = Raise AttributeError).
Proof.
  intros Hid. split.
  - intros st response. unfold ReadHandler_handle. rewrite Hid.
    unfold mbind, M_bind.
    destruct (query_all st) as [[l|e] st1]; [|done].
    destruct (comprehension l (as_dict self) st1) as [[d|e] st2]; done.
  - intros w. unfold AbstractHandler_call, try_finally, ReadHandler_handle.
    rewrite Hid.
    pose proof (query_all_serialized self (storage w)) as Hq.
    unfold blank_state in Hq. unfold mbind, M_bind in *.
    destruct (query_all _) as [[l|e] st1]; [|done].
    destruct (comprehension l (as_dict self) st1) as [[d|e] st2]; done.
Qed.

(** C6. On any world, [RetrieveAllHandler] answers 200 with the serialised
    entities in a list, while the collection branch of [ReadHandler], after
    the same query, raises [AttributeError]; the two leave the same world. *)
Theorem retrieve_all_and_read_collection (self : Model) (request : Request) (w : World) :
  match_info request !! "id" = None →
  ∃ w',
    AbstractHandler_call (RetrieveAllHandler_handle self) request w
    = (Ok {| status := 200;
             body := JsonBody (VList (map (serialized self) (map_to_list (storage w))));
             content_type := Some "application/json"; headers := [] |}, w') ∧
    AbstractHandler_call (ReadHandler_handle self) request w
    = (Raise AttributeError, w').
Proof.
  intros Hid. eexists.
  unfold AbstractHandler_call, try_finally, ReadHandler_handle,
    RetrieveAllHandler_handle.
  rewrite Hid.
  pose proof (query_all_serialized self (storage w)) as Hq.
  unfold blank_state in Hq. unfold mbind, M_bind in *.
  destruct (query_all _) as [[l|e] st1]; [|done].
  destruct (comprehension l (as_dict self) st1) as [[d|e] st2]; [|done].
  injection Hq as -> ->. simpl. done.
Qed.

(** ** Requests that do get an answer *)

Lemma apply_items_extra cls kvs : ∀ inst,
  Forall (λ kv : string * value, kv.1 ∈ columns cls) kvs →
  extra (apply_items cls kvs inst) = extra inst.
Proof.
  unfold apply_items.
  induction kvs as [|[k v] kvs IH]; intros inst Hall; [done|].
  apply Forall_cons in Hall as [Hk Hall]. simpl in *.
  rewrite IH by done. unfold set_attribute. by rewrite bool_decide_eq_true_2.
Qed.

Lemma add_and_commit_generated t inst row calls0 :
  key inst = None →
  cols inst !! "pk" = None →
  bind_columns (dirty inst) (cols inst) ∅ = Ok row →
  t !! generated_pk t = None →
  add_and_commit_item 0%nat
    {| table := t;
       session := {| is_open := true; calls := calls0; new := [];
                     identity_map := []; deleted := [] |};
       heap := [inst] |}
  = (Ok 0%nat,
     {| table := <[generated_pk t := <["pk" := VInt (generated_pk t)]> row]> t;
        session := {| is_open := true; calls := calls0 ++ [CAdd; CCommit; CRefresh];
                      new := []; identity_map := [0%nat]; deleted := [] |};
        heap := [{| key := Some (generated_pk t);
                    cols := <["pk" := VInt (generated_pk t)]> row;
                    extra := extra inst; dirty := [] |}] |}).
Proof.
  intros Hkey Hpk Hbind Hfree.
  unfold add_and_commit_item, add, commit, refresh, flush, flush_insert.
  mrun. rewrite Hkey. mrun.
  unfold with_session, with_table, with_heap, record_call. simpl.
  rewrite Hpk. simpl. rewrite Hbind. simpl. rewrite Hfree. simpl.
  rewrite lookup_insert_eq. simpl. rewrite insert_insert_eq, <- !app_assoc. done.
Qed.

(** The columns a body names can all be written when the column types take
    the body's values. *)
Lemma apply_items_binds cls kvs inst row :
  dirty inst = [] →
  (∀ k v, dict_get k kvs = Some v → ∃ v', bind k v = Ok v') →
  ∃ r, bind_columns (dirty (apply_items cls kvs inst))
         (cols (apply_items cls kvs inst)) row = Ok r.
Proof.
  intros Hclean Hbinds. apply bind_columns_ok. intros c Hc Hne.
  apply apply_items_dirty_elem in Hc as [Hcol [v Hv]]; [|done].
  rewrite apply_items_cols, bool_decide_eq_true_2, Hv by done. simpl.
  by apply Hbinds.
Qed.

(** A POST whose body names columns only, and not [pk], with values the
    column types take, is answered 201 as long as the key the engine
    generates is free. *)
Lemma create_answers_201 (self : Model) (request : Request) (w : World)
    (kwargs : list (string * value)) :
  json_body request = Some (VDict kwargs) →
  Forall (λ kv : string * value, kv.1 ∈ columns self) kwargs →
  dict_get "pk" kwargs = None →
  (∀ k v, dict_get k kwargs = Some v → ∃ v', bind k v = Ok v') →
  storage w !! generated_pk (storage w) = None →
  ∃ response w',
    AbstractHandler_call (CreateHandler_handle self) request w = (Ok response, w') ∧
    status response = 201.
Proof.
  intros Hbody Hall Hnopk Hbinds Hfree.
  set (inst := apply_items self kwargs
                 {| key := None; cols := ∅; extra := ∅; dirty := [] |}).
  assert (Hpk : cols inst !! "pk" = None).
  { unfold inst. rewrite apply_items_cols, Hnopk. simpl.
    rewrite lookup_empty. by case_bool_decide. }
  assert (Hextra : extra inst !! "as_dict" = None).
  { unfold inst. by rewrite apply_items_extra. }
  destruct (apply_items_binds self kwargs
              {| key := None; cols := ∅; extra := ∅; dirty := [] |} ∅)
    as [row Hrow]; [done|done|]. fold inst in Hrow.
  eexists _, _.
  unfold AbstractHandler_call, try_finally, CreateHandler_handle, get_request_json.
  rewrite Hbody. erewrite bind_ok by reflexivity.
  erewrite bind_ok.
  2: { apply model_init_accepts. eapply Forall_impl; [exact Hall|].
       intros [k v] Hk. simpl in *. unfold hasattr.
       apply bool_decide_eq_true_2, elem_of_app. by left. }
  unfold with_heap, SessionLocal. simpl. fold inst.
  erewrite bind_ok
    by (eapply add_and_commit_generated; [by apply apply_items_key|done|done|done]).
  erewrite json_response_entity by reflexivity. simpl.
  rewrite Hextra. split; reflexivity.
Qed.

Lemma add_and_commit_same_key t inst k old row calls0 :
  key inst = Some k →
  t !! k = Some old →
  cols inst !! "pk" = Some (VInt k) →
  bind_columns (dirty inst) (cols inst) old = Ok row →
  ∃ c,
    add_and_commit_item 0%nat
      {| table := t;
         session := {| is_open := true; calls := calls0; new := [];
                       identity_map := [0%nat]; deleted := [] |};
         heap := [inst] |}
    = (Ok 0%nat,
       {| table := if modified inst then <[k := <["pk" := VInt k]> row]> (delete k t)
                   else t;
          session := {| is_open := true; calls := calls0 ++ [CAdd; CCommit; CRefresh];
                        new := []; identity_map := [0%nat]; deleted := [] |};
          heap := [{| key := Some k; cols := c; extra := extra inst;
                      dirty := [] |}] |}).
Proof.
  intros Hkey Hrow Hpk Hbind.
  unfold add_and_commit_item, add, commit, refresh, flush, flush_update.
  mrun. rewrite Hkey. mrun. rewrite Hkey.
  unfold with_session, with_table, with_heap, record_call. simpl.
  destruct (modified inst) eqn:Hmod; simpl.
  - rewrite Hrow, Hpk. simpl. rewrite Hbind. simpl.
    rewrite bool_decide_eq_false_2 by (by intros [? _]). simpl.
    rewrite lookup_insert_eq. simpl. rewrite <- !app_assoc. by eexists.
  - rewrite Hkey, Hrow. simpl. rewrite <- !app_assoc. by eexists.
Qed.

(** A PUT on a stored entity whose body names columns only, and not [pk],
    with values the column types take, is answered 200. *)
Lemma update_answers_200 (self : Model) (request : Request) (w : World)
    (id : string) (p : Z) (row : gmap string value) (kvs : list (string * value)) :
  "pk" ∈ columns self →
  match_info request !! "id" = Some id →
  py_int id = Some p →
  storage w !! p = Some row →
  json_body request = Some (VDict kvs) →
  Forall (λ kv : string * value, kv.1 ∈ columns self) kvs →
  dict_get "pk" kvs = None →
  (∀ k v, dict_get k kvs = Some v → ∃ v', bind k v = Ok v') →
  ∃ response w',
    AbstractHandler_call (UpdateHandler_handle self) request w = (Ok response, w') ∧
    status response = 200.
Proof.
  intros Hpk Hid Hint Hrow Hbody Hall Hnopk Hbinds.
  set (inst := apply_items self kvs (loaded (p, row))).
  assert (Hpkv : cols inst !! "pk" = Some (VInt p)).
  { unfold inst. rewrite apply_items_cols, Hnopk, bool_decide_eq_true_2 by done.
    apply lookup_insert_eq. }
  assert (Hextra : extra inst !! "as_dict" = None).
  { unfold inst. by rewrite apply_items_extra. }
  destruct (apply_items_binds self kvs (loaded (p, row)) row) as [r Hr]; [done|done|].
  fold inst in Hr.
  destruct (add_and_commit_same_key (storage w) inst p row r [CQuery])
    as (c & Hadd); [by apply apply_items_key|done|done|done|].
  eexists _, _.
  unfold AbstractHandler_call, try_finally, UpdateHandler_handle,
    match_info_getitem, int, get_request_json.
  rewrite Hid. erewrite bind_ok by reflexivity.
  rewrite Hint. erewrite bind_ok by reflexivity.
  erewrite bind_ok by by apply get_item_by_id_fresh.
  cbv beta iota. rewrite Hbody.
  erewrite bind_ok by reflexivity.
  erewrite bind_ok by reflexivity.
  erewrite bind_ok by (apply for_each_setattr; reflexivity).
  unfold with_heap. simpl.
  erewrite bind_ok by exact Hadd.
  erewrite json_response_entity by reflexivity. simpl.
  rewrite Hextra. split; reflexivity.
Qed.

End Properties.

(** * Further properties of the handlers *)

Section Further.
Context `{Platform}.

(** ** What an answer can look like *)

Lemma as_dict_inv self item st d st' :
  as_dict self item st = (Ok d, st') →
  st' = st ∧
  d = VDict (map (λ c, (c, default VNone (cols (heap st !!! item) !! c))) (columns self)).
Proof.
  unfold as_dict. mrun.
  destruct (extra (heap st !!! item) !! "as_dict"); [done|].
  by intros [= <- <-].
Qed.

Lemma json_response_inv self item code st response st' :
  json_response self item code st = (Ok response, st') →
  st' = st ∧ status response = code ∧ entity_body self response.
Proof.
  unfold json_response. intros (d & st1 & Hd & Hret)%bind_inv.
  destruct item as [item|l]; [|done].
  apply as_dict_inv in Hd as [-> ->].
  injection Hret as <- <-. split; [done|]. split; [done|].
  eexists. split; [reflexivity|]. split; [|done].
  rewrite <- list_fmap_compose. apply list_fmap_id.
Qed.

Lemma create_answer self request st response st' :
  CreateHandler_handle self request st = (Ok response, st') →
  status response = 201 ∧ entity_body self response.
Proof.
  unfold CreateHandler_handle.
  intros (data & st1 & _ & Hrun)%bind_inv.
  apply bind_inv in Hrun as (item & st2 & _ & Hrun).
  apply bind_inv in Hrun as (item' & st3 & _ & Hrun).
  by apply json_response_inv in Hrun as (_ & ? & ?).
Qed.

Lemma read_answer self request st response st' :
  ReadHandler_handle self request st = (Ok response, st') →
  (status response = 200 ∧ entity_body self response) ∨ response = not_found.
Proof.
  unfold ReadHandler_handle. destruct (match_info request !! "id") as [id|].
  - intros (item_id & st1 & _ & Hrun)%bind_inv.
    apply bind_inv in Hrun as ([item|] & st2 & _ & Hrun).
    + left. by apply json_response_inv in Hrun as (_ & ? & ?).
    + right. by injection Hrun as <- _.
  - intros (l & st1 & _ & Hrun)%bind_inv.
    apply bind_inv in Hrun as (ds & st2 & _ & Hrun).
    left. by apply json_response_inv in Hrun as (_ & ? & ?).
Qed.

Lemma update_answer self request st response st' :
  UpdateHandler_handle self request st = (Ok response, st') →
  (status response = 200 ∧ entity_body self response) ∨ response = not_found.
Proof.
  unfold UpdateHandler_handle.
  intros (id & st1 & _ & Hrun)%bind_inv.
  apply bind_inv in Hrun as (item_id & st2 & _ & Hrun).
  apply bind_inv in Hrun as ([item|] & st3 & _ & Hrun).
  - left.
    apply bind_inv in Hrun as (data & st4 & _ & Hrun).
    apply bind_inv in Hrun as (kvs & st5 & _ & Hrun).
    apply bind_inv in Hrun as ([] & st6 & _ & Hrun).
    apply bind_inv in Hrun as (item' & st7 & _ & Hrun).
    by apply json_response_inv in Hrun as (_ & ? & ?).
  - right. by injection Hrun as <- _.
Qed.

Lemma delete_answer self request st response st' :
  DeleteHandler_handle self request st = (Ok response, st') →
  response = no_content ∨ response = not_found.
Proof.
  unfold DeleteHandler_handle.
  intros (id & st1 & _ & Hrun)%bind_inv.
  apply bind_inv in Hrun as (item_id & st2 & _ & Hrun).
  apply bind_inv in Hrun as ([item|] & st3 & _ & Hrun).
  - left. apply bind_inv in Hrun as ([] & st4 & _ & Hrun).
    by injection Hrun as <- _.
  - right. by injection Hrun as <- _.
Qed.

Lemma retrieve_all_answer self request st response st' :
  RetrieveAllHandler_handle self request st = (Ok response, st') →
  status response = 200.
Proof.
  unfold RetrieveAllHandler_handle.
  intros (l & st1 & _ & Hrun)%bind_inv.
  apply bind_inv in Hrun as (ds & st2 & _ & Hrun).
  by injection Hrun as <- _.
Qed.

(** Whatever the request and the state, a handler that answers at all
    answers 200, 201, 204 or 404: no path of [handlers.py] produces a 400 or
    any other error status, failures leave as exceptions. *)
Theorem answers_are_200_201_204_404 (self : Model) (request : Request) (st : State)
    (handle : Model → Request → M Response) (response : Response) :
  handle ∈ handle_methods →
  (handle self request st).1 = Ok response →
  status response ∈ [200; 201; 204; 404].
Proof.
  intros Hin Hrun.
  destruct (handle self request st) as [r st'] eqn:Heq. simpl in Hrun. subst r.
  unfold handle_methods in Hin.
  repeat (apply elem_of_cons in Hin as [->|Hin]); [..|by apply elem_of_nil in Hin].
  - apply create_answer in Heq as [-> _]. set_solver.
  - apply retrieve_all_answer in Heq as ->. set_solver.
  - apply read_answer in Heq as [[-> _]| ->]; set_solver.
  - apply update_answer in Heq as [[-> _]| ->]; set_solver.
  - apply delete_answer in Heq as [->| ->]; set_solver.
  - apply update_answer in Heq as [[-> _]| ->]; set_solver.
  - injection Heq as <- _. set_solver.
  - injection Heq as <- _. set_solver.
Qed.

(** An answer of the create, read, update or patch handler that is not the
    404 is a JSON object whose keys are exactly the model's columns, in their
    order, with status 201 for create and 200 for the others. *)
Theorem entity_answers_list_the_columns (self : Model) (request : Request)
    (st st' : State) (response : Response) :
  (CreateHandler_handle self request st = (Ok response, st') →
   status response = 201 ∧ entity_body self response) ∧
  (ReadHandler_handle self request st = (Ok response, st') →
   response ≠ not_found → status response = 200 ∧ entity_body self response) ∧
  (UpdateHandler_handle self request st = (Ok response, st') →
   response ≠ not_found → status response = 200 ∧ entity_body self response) ∧
  (PatchHandler_handle self request st = (Ok response, st') →
   response ≠ not_found → status response = 200 ∧ entity_body self response).
Proof.
  split; [apply create_answer|].
  split; [intros [?|?]%read_answer ?; done|].
  split; intros [?|?]%update_answer ?; done.
Qed.

(** ** Requests that are refused with an exception *)

(** PUT, PATCH and DELETE index the match info with ['id']: without that key
    they raise [KeyError] before anything else happens, where [ReadHandler]
    tests for the key first.  Through the wrapper the session is closed
    unused and the table is as before. *)
Theorem missing_route_id_raises_key_error (self : Model) (request : Request)
    (handle : Model → Request → M Response) :
  match_info request !! "id" = None →
  handle ∈ [UpdateHandler_handle; PatchHandler_handle; DeleteHandler_handle] →
  (∀ st, handle self request st = (Raise KeyError, st)) ∧
  (∀ w, AbstractHandler_call (handle self) request w
        = (Raise KeyError,
           {| storage := storage w; sessions := sessions w ++ [closed_after []] |})).
Proof.
  intros Hid Hin.
  assert (Hraise : ∀ st, handle self request st = (Raise KeyError, st)).
  { intros st. repeat (apply elem_of_cons in Hin as [->|Hin]);
      [| | |by apply elem_of_nil in Hin];
      unfold UpdateHandler_handle, PatchHandler_handle, DeleteHandler_handle,
        match_info_getitem; by rewrite Hid. }
  split; [done|].
  intros w. unfold AbstractHandler_call, try_finally. by rewrite Hraise.
Qed.

(** A POST whose body is not a JSON object is not answered: [request.json()]
    raises [JSONDecodeError] on a body that is no JSON document, and the
    model's constructor raises [TypeError] on a document that is no object.
    Nothing has been created or called on the session by then. *)
Theorem create_refuses_non_object_body (self : Model) (request : Request) (st : State) :
  (∀ d, json_body request ≠ Some (VDict d)) →
  CreateHandler_handle self request st
  = (Raise (match json_body request with
            | None => JSONDecodeError
            | Some _ => TypeError
            end), st).
Proof.
  intros Hbody. unfold CreateHandler_handle, get_request_json.
  destruct (json_body request) as [data|]; [|done].
  destruct data; try done. by destruct (Hbody d).
Qed.

(** A PUT or PATCH on a stored entity whose body is not a JSON object is not
    answered either: the entity is looked up first, then [request.json()]
    raises [JSONDecodeError], or [data.items()] raises [AttributeError].  The
    session has seen the query and nothing else, the table is as before. *)
Theorem update_refuses_non_object_body (self : Model) (request : Request) (w : World)
    (id : string) (p : Z) (row : gmap string value)
    (handle : Model → Request → M Response) :
  "pk" ∈ columns self →
  match_info request !! "id" = Some id →
  py_int id = Some p →
  storage w !! p = Some row →
  (∀ d, json_body request ≠ Some (VDict d)) →
  handle ∈ [UpdateHandler_handle; PatchHandler_handle] →
  AbstractHandler_call (handle self) request w
  = (Raise (match json_body request with
            | None => JSONDecodeError
            | Some _ => AttributeError
            end),
     {| storage := storage w; sessions := sessions w ++ [closed_after [CQuery]] |}).
Proof.
  intros Hpk Hid Hint Hrow Hbody Hin.
  assert (handle = UpdateHandler_handle) as ->.
  { repeat (apply elem_of_cons in Hin as [->|Hin]); [done|done|].
    by apply elem_of_nil in Hin. }
  unfold AbstractHandler_call, try_finally, UpdateHandler_handle,
    match_info_getitem, int, get_request_json.
  rewrite Hid. erewrite bind_ok by reflexivity.
  rewrite Hint. erewrite bind_ok by reflexivity.
  erewrite bind_ok by by apply get_item_by_id_fresh.
  cbv beta iota.
  destruct (json_body request) as [data|]; [|done].
  erewrite bind_ok by reflexivity.
  destruct data; try done. by destruct (Hbody d).
Qed.

(** ** Reading and deleting a stored entity *)


Lemma read_call self request w id p row :
  "pk" ∈ columns self →
  match_info request !! "id" = Some id →
  py_int id = Some p →
  storage w !! p = Some row →
  AbstractHandler_call (ReadHandler_handle self) request w
  = (Ok {| status := 200; body := JsonBody (serialized self (p, row));
           content_type := Some "application/json"; headers := [] |},
     {| storage := storage w; sessions := sessions w ++ [closed_after [CQuery]] |}).
Proof.
  intros Hpk Hid Hint Hrow.
  unfold AbstractHandler_call, try_finally, ReadHandler_handle, int.
  rewrite Hid, Hint. erewrite bind_ok by reflexivity.
  erewrite bind_ok by by apply get_item_by_id_fresh.
  cbv beta iota. erewrite json_response_entity by reflexivity. simpl.
  by rewrite lookup_empty.
Qed.

Lemma delete_call self request w id p row :
  "pk" ∈ columns self →
  match_info request !! "id" = Some id →
  py_int id = Some p →
  storage w !! p = Some row →
  AbstractHandler_call (DeleteHandler_handle self) request w
  = (Ok no_content,
     {| storage := delete p (storage w);
        sessions := sessions w ++ [closed_after [CQuery; CDelete; CCommit]] |}).
Proof.
  intros Hpk Hid Hint Hrow.
  unfold AbstractHandler_call, try_finally, DeleteHandler_handle,
    match_info_getitem, int.
  rewrite Hid. erewrite bind_ok by reflexivity.
  rewrite Hint. erewrite bind_ok by reflexivity.
  erewrite bind_ok by by apply get_item_by_id_fresh.
  cbv beta iota.
  unfold delete_and_commit_item, delete_item, commit, flush, flush_delete.
  mrun. reflexivity.
Qed.

(** GET on the id of a stored entity answers 200 with the entity serialised
    by [as_dict]; the session has seen one query, the table is as before. *)
Theorem read_answers_stored_entity (self : Model) (request : Request) (w : World)
    (id : string) (p : Z) (row : gmap string value) :
  "pk" ∈ columns self →
  match_info request !! "id" = Some id →
  py_int id = Some p →
  storage w !! p = Some row →
  ∃ d,
    AbstractHandler_call (ReadHandler_handle self) request w
    = (Ok {| status := 200; body := JsonBody (VDict d);
             content_type := Some "application/json"; headers := [] |},
       {| storage := storage w; sessions := sessions w ++ [closed_after [CQuery]] |}) ∧
    dict_get "pk" d = Some (VInt p) ∧
    ∀ k, k ∈ columns self → k ≠ "pk" →
         dict_get k d = Some (default VNone (row !! k)).
Proof.
  intros Hpk Hid Hint Hrow. eexists. split; [by eapply read_call|].
  split.
  - rewrite dict_get_map, bool_decide_eq_true_2 by done. simpl.
    by rewrite lookup_insert_eq.
  - intros k Hk Hne. rewrite dict_get_map, bool_decide_eq_true_2 by done. simpl.
    by rewrite lookup_insert_ne.
Qed.

(** DELETE on the id of a stored entity answers 204 with an empty body after
    [delete] and [commit] (no [refresh]); the entity's row is gone from the
    table and every other row is as before. *)
Theorem delete_removes_the_entity (self : Model) (request : Request) (w : World)
    (id : string) (p : Z) (row : gmap string value) :
  "pk" ∈ columns self →
  match_info request !! "id" = Some id →
  py_int id = Some p →
  storage w !! p = Some row →
  ∃ w',
    AbstractHandler_call (DeleteHandler_handle self) request w = (Ok no_content, w') ∧
    sessions w' = sessions w ++ [closed_after [CQuery; CDelete; CCommit]] ∧
    storage w' !! p = None ∧
    (∀ p', p' ≠ p → storage w' !! p' = storage w !! p') ∧
    size (storage w') = pred (size (storage w)).
Proof.
  intros Hpk Hid Hint Hrow. eexists. split; [by eapply delete_call|]. simpl.
  split; [done|]. split; [apply lookup_delete_eq|].
  split; [intros p' Hne; by apply lookup_delete_ne|].
  by apply map_size_delete_Some.
Qed.


(** ** Handlers that only read *)

Lemma reads_only_refl st : reads_only st st.
Proof.
  do 3 (split; [done|]). split.
  - exists []. by rewrite app_nil_r.
  - exists []. by rewrite !app_nil_r.
Qed.

Lemma reads_only_trans st1 st2 st3 :
  reads_only st1 st2 → reads_only st2 st3 → reads_only st1 st3.
Proof.
  intros (Ht & Hn & Hd & (cs & Hc & Hcs) & l & Hh & Hl & Hi)
         (Ht' & Hn' & Hd' & (cs' & Hc' & Hcs') & l' & Hh' & Hl' & Hi').
  split; [congruence|]. split; [congruence|]. split; [congruence|]. split.
  - exists (cs ++ cs'). split.
    + by rewrite Hc', Hc, app_assoc.
    + by apply Forall_app.
  - exists (l ++ l'). split; [by rewrite Hh', Hh, app_assoc|].
    split; [by apply Forall_app|].
    rewrite Hi', Hi, Hh, !length_app, seq_app, app_assoc. done.
Qed.

Lemma reads_only_calls st st' cs :
  table st' = table st →
  new (session st') = new (session st) →
  deleted (session st') = deleted (session st) →
  identity_map (session st') = identity_map (session st) →
  heap st' = heap st →
  calls (session st') = calls (session st) ++ cs →
  Forall (λ c, is_write c = false) cs →
  reads_only st st'.
Proof.
  intros Ht Hn Hd Hi Hh Hc Hcs. do 3 (split; [done|]). split; [by exists cs|].
  exists []. by rewrite Hh, Hi, !app_nil_r.
Qed.

Lemma read_only_ret {A : Type} (a : A) : read_only_action (mret a).
Proof. intros st r st' [= _ <-]. apply reads_only_refl. Qed.

Lemma read_only_raise {A : Type} (e : exn) : read_only_action (@raise A e).
Proof. intros st r st' [= _ <-]. apply reads_only_refl. Qed.

Lemma read_only_bind {A B : Type} (m : M A) (f : A → M B) :
  read_only_action m → (∀ a, read_only_action (f a)) → read_only_action (m ≫= f).
Proof.
  intros Hm Hf st r st' Hrun. unfold mbind, M_bind in Hrun.
  destruct (m st) as [[a|e] st1] eqn:Hm1.
  - eapply reads_only_trans; [by eapply Hm|by eapply Hf].
  - injection Hrun as _ <-. by eapply Hm.
Qed.

Lemma read_only_comprehension {A B : Type} (l : list A) (f : A → M B) :
  (∀ a, read_only_action (f a)) → read_only_action (comprehension l f).
Proof.
  intros Hf. induction l as [|x l IH]; simpl.
  - apply read_only_ret.
  - apply read_only_bind; [done|]. intros y.
    apply read_only_bind; [done|]. intros ys. apply read_only_ret.
Qed.

Lemma read_only_query : read_only_action (log_call CQuery).
Proof.
  intros st r st' [= _ <-]. apply (reads_only_calls _ _ [CQuery]); try done.
  by repeat constructor.
Qed.

Lemma read_only_get_state : read_only_action get_state.
Proof. intros st r st' [= _ <-]. apply reads_only_refl. Qed.

Lemma read_only_load p row : read_only_action (load p row).
Proof.
  intros st r st'. unfold load. destruct (List.find _ _).
  - intros [= _ <-]. apply reads_only_refl.
  - intros [= _ <-]. do 3 (split; [done|]). split.
    + exists []. simpl. by rewrite app_nil_r.
    + eexists [_]. simpl. split; [done|]. split; [|done].
      by repeat constructor.
Qed.

Lemma read_only_as_dict self item : read_only_action (as_dict self item).
Proof.
  intros st r st'. unfold as_dict. mrun.
  destruct (extra (heap st !!! item) !! "as_dict");
    intros [= _ <-]; apply reads_only_refl.
Qed.

Lemma read_only_json_response self item code :
  read_only_action (json_response self item code).
Proof.
  unfold json_response. apply read_only_bind.
  - destruct item; [apply read_only_as_dict|apply read_only_raise].
  - intros d. apply read_only_ret.
Qed.

Lemma read_only_query_all : read_only_action query_all.
Proof.
  unfold query_all. apply read_only_bind; [apply read_only_query|]. intros _.
  apply read_only_bind; [apply read_only_get_state|]. intros st.
  apply read_only_comprehension. intros [p row]. apply read_only_load.
Qed.

Lemma read_only_get_item_by_id self item_id :
  read_only_action (get_item_by_id self item_id).
Proof.
  unfold get_item_by_id. apply read_only_bind; [apply read_only_query|]. intros _.
  apply read_only_bind.
  { case_bool_decide; [apply read_only_ret|apply read_only_raise]. }
  intros _. apply read_only_bind; [apply read_only_get_state|]. intros st.
  destruct (table st !! item_id).
  - apply read_only_bind; [apply read_only_load|]. intros r. apply read_only_ret.
  - destruct (key_error item_id); [apply read_only_raise|apply read_only_ret].
Qed.

Lemma read_only_read_handler self request :
  read_only_action (ReadHandler_handle self request).
Proof.
  unfold ReadHandler_handle. destruct (match_info request !! "id") as [id|].
  - apply read_only_bind.
    { unfold int. destruct (py_int id); [apply read_only_ret|apply read_only_raise]. }
    intros item_id. apply read_only_bind; [apply read_only_get_item_by_id|].
    intros [item|]; [apply read_only_json_response|apply read_only_ret].
  - apply read_only_bind; [apply read_only_query_all|]. intros l.
    apply read_only_bind.
    { apply read_only_comprehension. intros item. apply read_only_as_dict. }
    intros ds. apply read_only_json_response.
Qed.

Lemma read_only_retrieve_all self request :
  read_only_action (RetrieveAllHandler_handle self request).
Proof.
  unfold RetrieveAllHandler_handle.
  apply read_only_bind; [apply read_only_query_all|]. intros l.
  apply read_only_bind.
  { apply read_only_comprehension. intros item. apply read_only_as_dict. }
  intros ds. apply read_only_ret.
Qed.

(** Whatever the request, whatever state the table and the session are in
    and however the handler ends, [ReadHandler], [RetrieveAllHandler],
    [OptionsHandler] and [HeadHandler] leave the table and the session's
    pending work as they found them: the instances to insert and to delete
    are the same, no instance there was has changed, and the instances the
    handler has loaded are unmodified, so a later [commit] has nothing more
    to write; and they call nothing on the session but [query]. *)
Theorem reading_handlers_never_write (self : Model) (request : Request)
    (handle : Model → Request → M Response) (st : State) :
  handle ∈ [ReadHandler_handle; RetrieveAllHandler_handle; OptionsHandler_handle;
            HeadHandler_handle] →
  reads_only st (handle self request st).2.
Proof.
  intros Hin.
  destruct (handle self request st) as [r st'] eqn:Hrun. simpl.
  repeat (apply elem_of_cons in Hin as [->|Hin]); [| | | |by apply elem_of_nil in Hin].
  - by eapply read_only_read_handler.
  - by eapply read_only_retrieve_all.
  - injection Hrun as _ <-. apply reads_only_refl.
  - injection Hrun as _ <-. apply reads_only_refl.
Qed.

(** The same through [__call__]: a GET, OPTIONS or HEAD request never changes
    the stored entities, and the one session it adds is closed without an
    [add], [delete], [commit] or [refresh]. *)
Theorem reading_requests_keep_storage (self : Model) (request : Request) (w : World)
    (handle : Model → Request → M Response) :
  handle ∈ [ReadHandler_handle; RetrieveAllHandler_handle; OptionsHandler_handle;
            HeadHandler_handle] →
  let w' := (AbstractHandler_call (handle self) request w).2 in
  storage w' = storage w ∧
  ∃ s, sessions w' = sessions w ++ [s] ∧ is_open s = false ∧
       Forall (λ c, is_write c = false) (calls s).
Proof.
  intros Hin w'.
  assert (Hro : reads_only {| table := storage w; session := SessionLocal; heap := [] |}
                  (handle self request
                     {| table := storage w; session := SessionLocal; heap := [] |}).2).
  { destruct (handle self request _) as [r st'] eqn:Hrun. simpl.
    repeat (apply elem_of_cons in Hin as [->|Hin]);
      [| | | |by apply elem_of_nil in Hin].
    - by eapply read_only_read_handler.
    - by eapply read_only_retrieve_all.
    - injection Hrun as _ <-. apply reads_only_refl.
    - injection Hrun as _ <-. apply reads_only_refl. }
  unfold w', AbstractHandler_call, try_finally.
  destruct (handle self request _) as [r st'].
  destruct Hro as (Ht & _ & _ & (cs & Hcs & Hall) & _). simpl in *.
  split; [done|]. eexists. split; [done|]. split; [done|].
  simpl. rewrite Hcs. simpl. apply Forall_app. split; [done|]. by repeat constructor.
Qed.

(** ** What a create does to the table *)

(** Everything a POST that is answered has done. *)
Lemma create_call_inv self request w response w' :
  AbstractHandler_call (CreateHandler_handle self) request w = (Ok response, w') →
  ∃ kwargs p row,
    json_body request = Some (VDict kwargs) ∧
    Forall (λ kv : string * value, hasattr self kv.1 = true) kwargs ∧
    let inst := apply_items self kwargs
                  {| key := None; cols := ∅; extra := ∅; dirty := [] |} in
    (cols inst !! "pk" = Some (VInt p) ∨
     (p = generated_pk (storage w) ∧
      (cols inst !! "pk" = None ∨ cols inst !! "pk" = Some VNone))) ∧
    bind_columns (dirty inst) (cols inst) ∅ = Ok row ∧
    storage w !! p = None ∧
    w' = {| storage := <[p := <["pk" := VInt p]> row]> (storage w);
            sessions := sessions w ++ [closed_after [CAdd; CCommit; CRefresh]] |} ∧
    response = {| status := 201; body := JsonBody (serialized self (p, row));
                  content_type := Some "application/json"; headers := [] |}.
Proof.
  intros Hcall. unfold AbstractHandler_call, try_finally in Hcall.
  destruct (CreateHandler_handle self request _) as [r st] eqn:Hrun.
  simpl in Hcall. injection Hcall as -> <-.
  unfold CreateHandler_handle, get_request_json in Hrun.
  destruct (json_body request) as [data|]; [|done].
  erewrite bind_ok in Hrun by reflexivity.
  destruct data as [| | | | |kwargs]; try done.
  destruct (Forall_Exists_dec (λ kv, hasattr self kv.1 = true)
              (λ kv : string * value, hasattr self kv.1 = false)
              (λ kv, match hasattr self kv.1 as b
                       return {b = true} + {b = false} with
                     | true => left eq_refl | false => right eq_refl end) kwargs)
    as [Hall|Hex].
  2: { destruct (model_init_rejects self kwargs
                   {| table := storage w; session := SessionLocal; heap := [] |} Hex)
         as (st' & Hinit & _).
       erewrite bind_raise in Hrun by exact Hinit. done. }
  erewrite bind_ok in Hrun by by apply model_init_accepts.
  unfold with_heap, SessionLocal in Hrun. simpl in Hrun.
  set (inst := apply_items self kwargs _) in Hrun.
  apply bind_inv in Hrun as (r1 & st1 & Hadd & Hrun).
  apply add_and_commit_new in Hadd as (p & row & Hp & Hbind & Hfree & -> & ->);
    [|by apply apply_items_key].
  erewrite json_response_entity in Hrun by reflexivity. simpl in Hrun.
  destruct (extra inst !! "as_dict"); [done|].
  injection Hrun as <- <-. simpl.
  exists kwargs, p, row. split; [done|]. split; [done|]. fold inst.
  split; [done|]. split; [done|]. split; [done|]. split; [done|].
  reflexivity.
Qed.

Lemma retrieve_all_call self request w :
  AbstractHandler_call (RetrieveAllHandler_handle self) request w
  = (Ok {| status := 200;
           body := JsonBody (VList (map (serialized self) (map_to_list (storage w))));
           content_type := Some "application/json"; headers := [] |},
     {| storage := storage w; sessions := sessions w ++ [closed_after [CQuery]] |}).
Proof.
  unfold AbstractHandler_call, try_finally, RetrieveAllHandler_handle.
  pose proof (query_all_serialized self (storage w)) as Hq.
  unfold blank_state in Hq. unfold mbind, M_bind in *.
  destruct (query_all _) as [[l|e] st1]; [|done].
  destruct (comprehension l (as_dict self) st1) as [[d|e] st2]; [|done].
  by injection Hq as -> ->.
Qed.

(** A POST that is answered has added exactly one row, under a key no row
    had: no stored entity is overwritten or changed.  The answer is that row
    serialised, and for every column other than [pk] that the body names the
    row holds the body's value as the column's type stores it. *)
Theorem create_adds_one_row (self : Model) (request : Request) (w w' : World)
    (response : Response) (kwargs : list (string * value)) :
  AbstractHandler_call (CreateHandler_handle self) request w = (Ok response, w') →
  json_body request = Some (VDict kwargs) →
  ∃ p row,
    storage w !! p = None ∧
    storage w' = <[p := row]> (storage w) ∧
    size (storage w') = S (size (storage w)) ∧
    body response = JsonBody (serialized self (p, row)) ∧
    ∀ k v, k ∈ columns self → k ≠ "pk" → dict_get k kwargs = Some v →
           ∃ v', bind k v = Ok v' ∧ row !! k = Some v'.
Proof.
  intros (kwargs' & p & row & Hbody' & _ & _ & Hbind & Hfree & -> & ->)%create_call_inv
    Hbody.
  assert (kwargs' = kwargs) as -> by congruence.
  eexists p, _. split; [done|]. split; [reflexivity|]. simpl.
  split; [by apply map_size_insert_None|].
  split; [unfold serialized; simpl; by rewrite insert_insert_eq|].
  intros k v Hk Hne Hget.
  destruct (bind_columns_lookup _ _ _ _ Hbind k) as [Hin _].
  destruct Hin as (v' & Hv' & Hr); [|done|].
  { apply apply_items_dirty_elem; [done|]. eauto. }
  rewrite apply_items_cols, bool_decide_eq_true_2, Hget in Hv' by done.
  exists v'. by rewrite lookup_insert_ne.
Qed.

(** After a POST that is answered, the collection lists one entity more than
    before, and the POST's body is one of them. *)
Theorem created_entity_is_listed (self : Model) (request request' : Request)
    (w w' : World) (response : Response) :
  AbstractHandler_call (CreateHandler_handle self) request w = (Ok response, w') →
  ∃ l w'',
    AbstractHandler_call (RetrieveAllHandler_handle self) request' w'
    = (Ok {| status := 200; body := JsonBody (VList l);
             content_type := Some "application/json"; headers := [] |}, w'') ∧
    length l = S (size (storage w)) ∧
    ∃ d, body response = JsonBody d ∧ d ∈ l.
Proof.
  intros (kwargs & p & row & _ & _ & _ & _ & Hfree & -> & ->)%create_call_inv.
  eexists _, _. split; [apply retrieve_all_call|]. simpl.
  split.
  - rewrite length_map, length_map_to_list. by apply map_size_insert_None.
  - eexists. split; [reflexivity|].
    apply list_elem_of_fmap. eexists (p, _). split.
    + unfold serialized. simpl. by rewrite insert_insert_eq.
    + apply elem_of_map_to_list, lookup_insert_eq.
Qed.

(** Deleting the entity a POST has just created gives back the table the
    POST started from. *)
Theorem create_then_delete_restores_table (self : Model) (request request' : Request)
    (w w' : World) (response : Response) (d : list (string * value))
    (id : string) (p : Z) :
  "pk" ∈ columns self →
  AbstractHandler_call (CreateHandler_handle self) request w = (Ok response, w') →
  body response = JsonBody (VDict d) →
  dict_get "pk" d = Some (VInt p) →
  match_info request' !! "id" = Some id →
  py_int id = Some p →
  ∃ w'',
    AbstractHandler_call (DeleteHandler_handle self) request' w' = (Ok no_content, w'') ∧
    storage w'' = storage w.
Proof.
  intros Hpk (kwargs & p' & row & _ & _ & _ & _ & Hfree & -> & ->)%create_call_inv
    Hbody Hget Hid Hint.
  injection Hbody as <-.
  rewrite dict_get_map, bool_decide_eq_true_2 in Hget by done.
  simpl in Hget. rewrite lookup_insert_eq in Hget. simpl in Hget.
  injection Hget as ->.
  eexists. split.
  - eapply delete_call; [done|done|done|]. simpl. apply lookup_insert_eq.
  - simpl. by apply delete_insert_id.
Qed.

Lemma bind_columns_raise set attrs : ∀ row e,
  bind_columns set attrs row = Raise e →
  ∃ c, c ∈ set ∧ c ≠ "pk" ∧ bind c (default VNone (attrs !! c)) = Raise e.
Proof.
  induction set as [|c0 set IH]; intros row e Hrun; simpl in Hrun; [done|].
  destruct (decide (c0 = "pk")) as [->|Hc0].
  - destruct (IH _ _ Hrun) as (c & Hc & Hne & Hb). exists c. split; [by right|done].
  - destruct (bind c0 (default VNone (attrs !! c0))) as [v0|e0] eqn:Hb.
    + destruct (IH _ _ Hrun) as (c & Hc & Hne & Hb'). exists c.
      split; [by right|done].
    + injection Hrun as <-. exists c0. split; [by left|done].
Qed.

(** A POST whose body gives the [pk] of a stored entity is not answered: the
    commit raises, [refresh] is never reached, and the table, that entity
    included, is as before.  What is raised is [IntegrityError], unless the
    body has a value for a column that the column's type cannot take: then it
    is the error of that value. *)
Theorem create_refuses_taken_pk (self : Model) (request : Request) (w : World)
    (kwargs : list (string * value)) (p : Z) (row : gmap string value) :
  "pk" ∈ columns self →
  json_body request = Some (VDict kwargs) →
  Forall (λ kv : string * value, hasattr self kv.1 = true) kwargs →
  dict_get "pk" kwargs = Some (VInt p) →
  storage w !! p = Some row →
  ∃ e,
    AbstractHandler_call (CreateHandler_handle self) request w
    = (Raise e,
       {| storage := storage w;
          sessions := sessions w ++ [closed_after [CAdd; CCommit]] |}) ∧
    ((∀ k v, k ∈ columns self → k ≠ "pk" → dict_get k kwargs = Some v →
             ∃ v', bind k v = Ok v') →
     e = IntegrityError) ∧
    (e = IntegrityError ∨
     ∃ k v, k ∈ columns self ∧ k ≠ "pk" ∧ dict_get k kwargs = Some v ∧
            bind k v = Raise e).
Proof.
  intros Hpk Hbody Hall Hget Hrow.
  set (inst := apply_items self kwargs
                 {| key := None; cols := ∅; extra := ∅; dirty := [] |}).
  assert (Hpkv : cols inst !! "pk" = Some (VInt p)).
  { unfold inst. by rewrite apply_items_cols, bool_decide_eq_true_2, Hget. }
  assert (Hkey : key inst = None) by apply apply_items_key.
  assert (Hrun : ∀ e,
    add_and_commit_item 0%nat
      {| table := storage w; session := SessionLocal; heap := [inst] |}
    = (Raise e,
       {| table := storage w;
          session := {| is_open := true; calls := [CAdd; CCommit]; new := [0%nat];
                        identity_map := []; deleted := [] |};
          heap := [inst] |}) →
    AbstractHandler_call (CreateHandler_handle self) request w
    = (Raise e,
       {| storage := storage w;
          sessions := sessions w ++ [closed_after [CAdd; CCommit]] |})).
  { intros e Hadd.
    unfold AbstractHandler_call, try_finally, CreateHandler_handle, get_request_json.
    rewrite Hbody. erewrite bind_ok by reflexivity.
    erewrite bind_ok by by apply model_init_accepts.
    unfold with_heap. simpl. fold inst.
    erewrite bind_raise by exact Hadd. reflexivity. }
  destruct (bind_columns (dirty inst) (cols inst) ∅) as [r|e] eqn:Hbind.
  - exists IntegrityError. split; [|split; [done|by left]].
    apply Hrun.
    unfold add_and_commit_item, add, commit, refresh, flush, flush_insert.
    mrun. rewrite Hkey. mrun.
    unfold with_session, with_table, with_heap, record_call. simpl.
    rewrite Hpkv. simpl. rewrite Hbind. simpl. rewrite Hrow. reflexivity.
  - exists e.
    destruct (bind_columns_raise _ _ _ _ Hbind) as (c & Hc & Hne & Hb).
    apply apply_items_dirty_elem in Hc as [Hcol [v Hv]]; [|done].
    unfold inst in Hb.
    rewrite apply_items_cols, bool_decide_eq_true_2, Hv in Hb by done.
    simpl in Hb. split; [|split].
    + apply Hrun.
      unfold add_and_commit_item, add, commit, refresh, flush, flush_insert.
      mrun. rewrite Hkey. mrun.
      unfold with_session, with_table, with_heap, record_call. simpl.
      rewrite Hpkv. simpl. rewrite Hbind. reflexivity.
    + intros Hbinds. destruct (Hbinds c v) as [v' Hv']; [done|done|done|congruence].
    + right. by exists c, v.
Qed.

(** ** What an update does to the table *)

Lemma apply_items_extra_eq cls kvs : ∀ inst inst',
  extra inst = extra inst' →
  extra (apply_items cls kvs inst) = extra (apply_items cls kvs inst').
Proof.
  unfold apply_items.
  induction kvs as [|[k v] kvs IH]; intros inst inst' Heq; simpl; [done|].
  apply IH. unfold set_attribute. case_bool_decide; simpl; by rewrite ?Heq.
Qed.

Lemma add_and_commit_persistent_run t inst k old row q calls0 :
  key inst = Some k →
  t !! k = Some old →
  cols inst !! "pk" = Some (VInt q) →
  bind_columns (dirty inst) (cols inst) old = Ok row →
  (modified inst = true → q = k ∨ t !! q = None) →
  (modified inst = false → q = k) →
  add_and_commit_item 0%nat
    {| table := t;
       session := {| is_open := true; calls := calls0; new := [];
                     identity_map := [0%nat]; deleted := [] |};
       heap := [inst] |}
  = (Ok 0%nat,
     {| table := if modified inst then <[q := <["pk" := VInt q]> row]> (delete k t)
                 else t;
        session := {| is_open := true; calls := calls0 ++ [CAdd; CCommit; CRefresh];
                      new := []; identity_map := [0%nat]; deleted := [] |};
        heap := [{| key := Some q; cols := <["pk" := VInt q]> row;
                    extra := extra inst; dirty := [] |}] |}).
Proof.
  intros Hkey Hold Hpk Hbind Hmod Hunmod.
  unfold add_and_commit_item, add, commit, refresh, flush, flush_update.
  mrun. rewrite Hkey. mrun. rewrite Hkey.
  unfold with_session, with_table, with_heap, record_call. simpl.
  destruct (modified inst) eqn:Hm; simpl.
  - rewrite Hold, Hpk. simpl. rewrite Hbind. simpl.
    rewrite bool_decide_eq_false_2.
    2: { intros [Hne [x Hx]]. destruct (Hmod eq_refl) as [?|Hnone]; [done|congruence]. }
    simpl. rewrite lookup_insert_eq. simpl.
    by rewrite insert_insert_eq, <- !app_assoc.
  - rewrite (Hunmod eq_refl). apply modified_false in Hm.
    rewrite Hm in Hbind. simpl in Hbind. injection Hbind as <-.
    rewrite Hkey, Hold. simpl. by rewrite <- !app_assoc.
Qed.

Lemma update_call_run self request w id p old row kvs q :
  "pk" ∈ columns self →
  match_info request !! "id" = Some id →
  py_int id = Some p →
  storage w !! p = Some old →
  json_body request = Some (VDict kvs) →
  let inst := apply_items self kvs (loaded (p, old)) in
  cols inst !! "pk" = Some (VInt q) →
  bind_columns (dirty inst) (cols inst) old = Ok row →
  (modified inst = true → q = p ∨ storage w !! q = None) →
  (modified inst = false → q = p) →
  extra inst !! "as_dict" = None →
  AbstractHandler_call (UpdateHandler_handle self) request w
  = (Ok {| status := 200; body := JsonBody (serialized self (q, row));
           content_type := Some "application/json"; headers := [] |},
     {| storage := if modified inst then <[q := <["pk" := VInt q]> row]>
                                           (delete p (storage w))
                   else storage w;
        sessions := sessions w ++ [closed_after [CQuery; CAdd; CCommit; CRefresh]] |}).
Proof.
  intros Hpk Hid Hint Hold Hbody inst Hpkv Hbind Hfree Hsame Hextra.
  unfold AbstractHandler_call, try_finally, UpdateHandler_handle,
    match_info_getitem, int, get_request_json.
  rewrite Hid. erewrite bind_ok by reflexivity.
  rewrite Hint. erewrite bind_ok by reflexivity.
  erewrite bind_ok by by apply get_item_by_id_fresh.
  cbv beta iota. rewrite Hbody.
  erewrite bind_ok by reflexivity.
  erewrite bind_ok by reflexivity.
  erewrite bind_ok by (apply for_each_setattr; reflexivity).
  unfold with_heap. simpl.
  change {| key := Some p; cols := <["pk" := VInt p]> old; extra := ∅;
            dirty := [] |} with (loaded (p, old)).
  fold inst.
  erewrite bind_ok.
  2: { apply (add_and_commit_persistent_run _ _ p old row q); try done.
       by apply apply_items_key. }
  erewrite json_response_entity by reflexivity. simpl.
  by rewrite Hextra.
Qed.

(** What the assignments of a body that names no [pk] leave of an entity's
    row: every attribute that is no column. *)
Lemma bind_columns_keeps cls kvs p old row k :
  bind_columns (dirty (apply_items cls kvs (loaded (p, old))))
    (cols (apply_items cls kvs (loaded (p, old)))) old = Ok row →
  k ∉ columns cls →
  row !! k = old !! k.
Proof.
  intros Hbind Hk.
  destruct (bind_columns_lookup _ _ _ _ Hbind k) as [_ Hout].
  apply Hout. left. rewrite apply_items_dirty_elem by done. by intros [? _].
Qed.

(** A PUT or PATCH that is answered 200 touches one entity: every entity
    under another key is as before, the entity leaves its old key when the
    body moves it to a new one, and a body key that is no column of the model
    never reaches the table.  The session got [query], [add], [commit],
    [refresh] and [close]. *)
Theorem update_touches_one_entity (self : Model) (request : Request) (w w' : World)
    (response : Response) (id : string) (p : Z) (kvs : list (string * value))
    (handle : Model → Request → M Response) :
  handle ∈ [UpdateHandler_handle; PatchHandler_handle] →
  AbstractHandler_call (handle self) request w = (Ok response, w') →
  status response = 200 →
  match_info request !! "id" = Some id →
  py_int id = Some p →
  json_body request = Some (VDict kvs) →
  let q := key_after p kvs in
  (∀ p', p' ≠ p → p' ≠ q → storage w' !! p' = storage w !! p') ∧
  (q ≠ p → storage w' !! p = None) ∧
  (∀ k, k ∉ columns self → stored_attr (storage w') q k = stored_attr (storage w) p k) ∧
  sessions w' = sessions w ++ [closed_after [CQuery; CAdd; CCommit; CRefresh]].
Proof.
  intros Hin Hcall Hstatus Hid Hint Hbody q.
  assert (handle = UpdateHandler_handle) as ->.
  { repeat (apply elem_of_cons in Hin as [->|Hin]); [done|done|].
    by apply elem_of_nil in Hin. }
  apply update_call_inv in Hcall
    as (id' & p' & old & kvs' & row & Hid' & Hint' & Hpk & Hold & Hbody' & Hpkv & _
        & Hbind & -> & _); [|done].
  assert (id' = id) as -> by congruence.
  assert (p' = p) as -> by congruence.
  assert (kvs' = kvs) as -> by congruence.
  fold q in Hpkv |- *. simpl.
  set (inst := apply_items self kvs (loaded (p, old))) in *.
  destruct (modified inst) eqn:Hmod.
  - split; [|split; [|split; [|done]]].
    + intros p' Hp Hq. by rewrite lookup_insert_ne, lookup_delete_ne.
    + intros Hq. by rewrite lookup_insert_ne, lookup_delete_eq.
    + intros k Hk. unfold stored_attr. rewrite lookup_insert_eq, Hold. simpl.
      assert (k ≠ "pk") by (by intros ->).
      rewrite insert_insert_eq, !lookup_insert_ne by done.
      by eapply bind_columns_keeps.
  - pose proof (apply_items_unmodified _ _ _ Hmod "pk" Hpk) as Hnone.
    assert (Hq : q = p) by (unfold q, key_after; by rewrite Hnone).
    split; [done|]. split; [done|]. split; [|done].
    intros k Hk. by rewrite Hq.
Qed.

(** After a PUT or PATCH that is answered 200, a GET on the entity's key (the
    route's, or the one the body moved it to) answers with the same status
    and the same body. *)
Theorem updated_entity_is_read_back (self : Model) (request request' : Request)
    (w w' : World) (response : Response) (id id' : string) (p : Z)
    (kvs : list (string * value)) (handle : Model → Request → M Response) :
  handle ∈ [UpdateHandler_handle; PatchHandler_handle] →
  AbstractHandler_call (handle self) request w = (Ok response, w') →
  status response = 200 →
  match_info request !! "id" = Some id →
  py_int id = Some p →
  json_body request = Some (VDict kvs) →
  match_info request' !! "id" = Some id' →
  py_int id' = Some (key_after p kvs) →
  (AbstractHandler_call (ReadHandler_handle self) request' w').1 = Ok response.
Proof.
  intros Hin Hcall Hstatus Hid Hint Hbody Hid' Hint'.
  assert (handle = UpdateHandler_handle) as ->.
  { repeat (apply elem_of_cons in Hin as [->|Hin]); [done|done|].
    by apply elem_of_nil in Hin. }
  apply update_call_inv in Hcall
    as (id0 & p0 & old & kvs0 & row & Hid0 & Hint0 & Hpk & Hold & Hbody0 & Hpkv & _
        & Hbind & -> & ->); [|done].
  assert (id0 = id) as -> by congruence.
  assert (p0 = p) as -> by congruence.
  assert (kvs0 = kvs) as -> by congruence.
  set (inst := apply_items self kvs (loaded (p, old))) in *.
  set (q := key_after p kvs) in *.
  destruct (modified inst) eqn:Hmod.
  - erewrite read_call; [|done|done|done|]; cycle 1.
    { simpl. apply lookup_insert_eq. }
    simpl. unfold serialized. simpl. by rewrite insert_insert_eq.
  - pose proof (apply_items_unmodified _ _ _ Hmod "pk" Hpk) as Hnone.
    assert (Hq : q = p) by (unfold q, key_after; by rewrite Hnone).
    apply modified_false in Hmod. fold inst in Hmod.
    rewrite Hmod in Hbind. simpl in Hbind. injection Hbind as <-.
    erewrite read_call; [|done|done|done|]; cycle 1.
    { simpl. rewrite Hq. exact Hold. }
    simpl. by rewrite Hq.
Qed.

(** PUT and PATCH are idempotent when the body leaves the key alone: repeating
    a request that was answered 200 is answered with the same response and
    leaves the table as the first one left it. *)
Theorem update_is_idempotent (self : Model) (request : Request) (w w' : World)
    (response : Response) (id : string) (p : Z) (kvs : list (string * value))
    (handle : Model → Request → M Response) :
  handle ∈ [UpdateHandler_handle; PatchHandler_handle] →
  AbstractHandler_call (handle self) request w = (Ok response, w') →
  status response = 200 →
  match_info request !! "id" = Some id →
  py_int id = Some p →
  json_body request = Some (VDict kvs) →
  key_after p kvs = p →
  ∃ w'',
    AbstractHandler_call (handle self) request w' = (Ok response, w'') ∧
    storage w'' = storage w'.
Proof.
  intros Hin Hcall Hstatus Hid Hint Hbody Hkey.
  assert (handle = UpdateHandler_handle) as ->.
  { repeat (apply elem_of_cons in Hin as [->|Hin]); [done|done|].
    by apply elem_of_nil in Hin. }
  apply update_call_inv in Hcall
    as (id0 & p0 & old & kvs0 & row & Hid0 & Hint0 & Hpk & Hold & Hbody0 & Hpkv
        & Hextra & Hbind & -> & ->); [|done].
  assert (id0 = id) as -> by congruence.
  assert (p0 = p) as -> by congruence.
  assert (kvs0 = kvs) as -> by congruence.
  rewrite Hkey in *.
  set (inst := apply_items self kvs (loaded (p, old))) in *.
  set (row1 := if modified inst then <["pk" := VInt p]> row else old).
  assert (Hrow1 : (if modified inst
                   then <[p := <["pk" := VInt p]> row]> (delete p (storage w))
                   else storage w) !! p = Some row1).
  { unfold row1. destruct (modified inst); [apply lookup_insert_eq|done]. }
  set (inst1 := apply_items self kvs (loaded (p, row1))).
  assert (Hdirty1 : dirty inst1 = dirty inst).
  { unfold inst1, inst. by rewrite !apply_items_dirty. }
  assert (Hmod1 : modified inst1 = modified inst).
  { unfold modified. by rewrite Hdirty1. }
  assert (Hpkv1 : cols inst1 !! "pk" = Some (VInt p)).
  { unfold inst1. rewrite apply_items_cols, bool_decide_eq_true_2 by done.
    unfold inst in Hpkv.
    rewrite apply_items_cols, bool_decide_eq_true_2 in Hpkv by done.
    destruct (dict_get "pk" kvs); [done|]. simpl. apply lookup_insert_eq. }
  assert (Hextra1 : extra inst1 !! "as_dict" = None).
  { unfold inst1. by erewrite apply_items_extra_eq. }
  assert (Hbind1 : bind_columns (dirty inst1) (cols inst1) row1 = Ok row1).
  { rewrite Hdirty1.
    rewrite (bind_columns_ext _ (cols inst1) (cols inst)).
    2: { intros c Hc. apply apply_items_dirty_elem in Hc as [Hcol [v Hv]]; [|done].
         unfold inst1, inst.
         by rewrite !apply_items_cols, bool_decide_eq_true_2, Hv. }
    unfold row1. destruct (modified inst) eqn:Hmod.
    - by eapply bind_columns_again.
    - apply modified_false in Hmod. by rewrite Hmod. }
  pose proof (update_call_run self request
                {| storage := if modified inst
                              then <[p := <["pk" := VInt p]> row]> (delete p (storage w))
                              else storage w;
                   sessions := sessions w
                               ++ [closed_after [CQuery; CAdd; CCommit; CRefresh]] |}
                id p row1 row1 kvs p Hpk Hid Hint Hrow1 Hbody) as Hrun.
  cbv zeta in Hrun. fold inst1 in Hrun. rewrite Hmod1 in Hrun.
  rewrite Hrun; [|done|done|by left|done|done].
  eexists. split.
  - apply (f_equal2 pair); [|reflexivity]. do 2 f_equal.
    unfold row1, serialized. simpl. destruct (modified inst) eqn:Hmod.
    + by rewrite insert_insert_eq.
    + apply modified_false in Hmod. rewrite Hmod in Hbind. simpl in Hbind.
      by injection Hbind as <-.
  - simpl. unfold row1. destruct (modified inst); [|done].
    by rewrite insert_delete_eq, !insert_insert_eq.
Qed.

(** ** The route table *)

Lemma string_app_inv_head (t a b : string) : t +:+ a = t +:+ b → a = b.
Proof.
  induction t as [|c t IH]; [done|].
  intros Heq. apply IH.
  change (String c (t +:+ a) = String c (t +:+ b)) in Heq. by injection Heq.
Qed.

(** [create_handler] registers eight routes, and no two of them have both the
    same method and the same path: the two GET routes differ in their path
    for every table name. *)
Theorem routes_are_distinct (model : Model) :
  length (create_handler model) = 8%nat ∧
  NoDup ((λ route, route.1) <$> create_handler model).
Proof.
  split; [done|]. unfold create_handler. simpl.
  assert (Hne : "/" +:+ tablename model +:+ "/" ≠ "/" +:+ tablename model +:+ "/{id}").
  { intros Heq. apply string_app_inv_head, string_app_inv_head in Heq. done. }
  generalize dependent ("/" +:+ tablename model +:+ "/").
  generalize ("/" +:+ tablename model +:+ "/{id}").
  intros item collection Hne.
  repeat (apply NoDup_cons; split); [..|apply NoDup_nil_2].
  all: rewrite ?elem_of_cons, elem_of_nil; intros Hin.
  all: repeat (destruct Hin as [Hin|Hin]); try done.
  all: by injection Hin.
Qed.

End Further.

(** * The properties at work on [Thing], on the concrete platform *)

#[local] Existing Instance Concrete.platform.

Example int_rejects_words : Concrete.int_of_ascii "abc" = None.
Proof. reflexivity. Qed.

Example int_reads_padded_decimal : Concrete.int_of_ascii " -1_2 " = Some (-12).
Proof. reflexivity. Qed.

(** GET, PUT, PATCH and DELETE of [/thing/2] when only entity 1 exists. *)
Lemma missing_id_is_not_found_witness :
  let request := item_request "2" None in
  let st := blank_state (storage one_thing) in
  ReadHandler_handle Thing request st = (Ok not_found, only_queried st) ∧
  UpdateHandler_handle Thing request st = (Ok not_found, only_queried st) ∧
  PatchHandler_handle Thing request st = (Ok not_found, only_queried st) ∧
  DeleteHandler_handle Thing request st = (Ok not_found, only_queried st).
Proof.
  apply (missing_id_is_not_found Thing (item_request "2" None)
           (blank_state (storage one_thing)) "2" 2).
  - by apply (bool_decide_unpack _).
  - reflexivity.
  - reflexivity.
  - reflexivity.
  - reflexivity.
Defined.

(** C3, as stated, fails. GET of [/thing/9223372036854775808] when only
    entity 1 exists: [int()] reads the id, no row has it, and the engine,
    whose keys are 64-bit integers, cannot bind it: the query raises
    [OverflowError] and the handler answers nothing. *)
Lemma id_beyond_64_bits_is_not_answered :
  ¬ missing_answers_404 (ReadHandler_handle Thing)
      (item_request "9223372036854775808" None) (blank_state (storage one_thing)).
Proof.
  intros Hclaim.
  specialize (Hclaim "9223372036854775808" (2 ^ 63)).
  assert (Hraise : (ReadHandler_handle Thing (item_request "9223372036854775808" None)
                      (blank_state (storage one_thing))).1 = Raise OverflowError)
    by (vm_compute; reflexivity).
  rewrite Hraise in Hclaim.
  discriminate Hclaim.
  - reflexivity.
  - vm_compute. reflexivity.
  - vm_compute. reflexivity.
Qed.

(** DELETE of [/thing/abc]. *)
Lemma malformed_id_raises_witness :
  (∀ st, DeleteHandler_handle Thing (item_request "abc" None) st
         = (Raise ValueError, st)) ∧
  (∀ st response,
     (DeleteHandler_handle Thing (item_request "abc" None) st).1 ≠ Ok response) ∧
  (∀ w, (AbstractHandler_call (DeleteHandler_handle Thing)
           (item_request "abc" None) w).1 = Raise ValueError).
Proof.
  apply (malformed_id_raises Thing (item_request "abc" None) "abc").
  - reflexivity.
  - reflexivity.
  - set_solver.
Defined.

(** POST of [{"invalid_field": "Invalid Value"}], the body of the repository's
    own test for invalid data. *)
Lemma create_unknown_field_raises_witness :
  (∀ st, ∃ st',
     CreateHandler_handle Thing post_invalid_field st = (Raise TypeError, st') ∧
     session st' = session st ∧ table st' = table st) ∧
  (∀ w, ∃ s,
     AbstractHandler_call (CreateHandler_handle Thing) post_invalid_field w
     = (Raise TypeError, {| storage := storage w; sessions := sessions w ++ [s] |}) ∧
     calls s = [CClose]).
Proof.
  apply (create_unknown_field_raises Thing post_invalid_field
           [("invalid_field", VStr "Invalid Value")]
           "invalid_field" (VStr "Invalid Value")).
  - reflexivity.
  - set_solver.
  - vm_compute. reflexivity.
Defined.

(** POST of [{"name": "a"}] on the empty table, then GET of [/thing/1]. *)
Lemma created_entity_is_read_back_witness :
  ∃ w',
    AbstractHandler_call (CreateHandler_handle Thing) post_name_a empty_world
    = (Ok {| status := 201; body := body (thing_1 "a");
             content_type := Some "application/json"; headers := [] |}, w') ∧
    ∃ w'',
      AbstractHandler_call (ReadHandler_handle Thing) (item_request "1" None) w'
      = (Ok (thing_1 "a"), w'').
Proof.
  eexists. split; [vm_compute; reflexivity|].
  destruct (created_entity_is_read_back Thing post_name_a empty_world
              (AbstractHandler_call (CreateHandler_handle Thing) post_name_a
                 empty_world).2
              {| status := 201; body := body (thing_1 "a");
                 content_type := Some "application/json"; headers := [] |})
    as (_ & _ & p & entity & row & Hbody & Hpk & _ & _ & Hread).
  - by apply (bool_decide_unpack _).
  - vm_compute. reflexivity.
  - injection Hbody as <-. vm_compute in Hpk. injection Hpk as <-.
    apply (Hread (item_request "1" None) "1"); reflexivity.
Defined.

(** GET of the collection through [ReadHandler]. *)
Lemma read_collection_raises_witness :
  (∀ st response,
     (ReadHandler_handle Thing (collection_request None) st).1 ≠ Ok response) ∧
  (∀ w, (AbstractHandler_call (ReadHandler_handle Thing) (collection_request None) w).1
        = Raise AttributeError).
Proof. apply (read_collection_raises Thing (collection_request None)). reflexivity. Defined.

(** GET of the collection through both handlers when entity 1 exists. *)
Lemma retrieve_all_and_read_collection_witness :
  ∃ w',
    AbstractHandler_call (RetrieveAllHandler_handle Thing) (collection_request None)
      one_thing
    = (Ok {| status := 200;
             body := JsonBody (VList (map (serialized Thing)
                                          (map_to_list (storage one_thing))));
             content_type := Some "application/json"; headers := [] |}, w') ∧
    AbstractHandler_call (ReadHandler_handle Thing) (collection_request None) one_thing
    = (Raise AttributeError, w').
Proof.
  apply (retrieve_all_and_read_collection Thing (collection_request None) one_thing).
  reflexivity.
Defined.

(** PUT of [{"name": "b"}] on [/thing/1]. *)
Lemma update_persists_supplied_columns_witness :
  let w' := (AbstractHandler_call (UpdateHandler_handle Thing) put_name_b one_thing).2 in
  ∃ q,
    q = 1 ∧
    is_Some (storage w' !! q) ∧
    (∀ k v, k ∈ columns Thing → k ≠ "pk" → dict_get k [("name", VStr "b")] = Some v →
            ∃ v', bind k v = Ok v' ∧
                  stored_attr (storage w') q k = Some v') ∧
    (∀ k, k ∉ columns Thing →
          stored_attr (storage w') q k = stored_attr (storage one_thing) 1 k) ∧
    (∀ k, dict_get k [("name", VStr "b")] = None →
          stored_attr (storage w') q k = stored_attr (storage one_thing) 1 k).
Proof.
  destruct (proj1 (update_persists_supplied_columns Thing put_name_b one_thing)
              (thing_1 "b")
              (AbstractHandler_call (UpdateHandler_handle Thing) put_name_b one_thing).2
              "1" 1 [("name", VStr "b")]) as (q & Hq & Hstored).
  - vm_compute. reflexivity.
  - reflexivity.
  - reflexivity.
  - reflexivity.
  - reflexivity.
  - exists q. split; [exact Hq|exact Hstored].
Defined.

(** C8, as stated, fails. PUT of [{"bogus": 1}] on [/thing/1] answers 200, yet
    the stored entity holds no [bogus]: the key is not a column, the
    assignment stays on the instance and is gone with the request. *)
Lemma update_unknown_key_not_persisted :
  ¬ update_persists (λ _, True) (UpdateHandler_handle Thing) put_bogus one_thing.
Proof.
  intros Hclaim.
  destruct (Hclaim (thing_1 "a")
              (AbstractHandler_call (UpdateHandler_handle Thing) put_bogus one_thing).2
              "1" 1 [("bogus", VInt 1)]) as (_ & Hsupplied & _).
  - vm_compute. reflexivity.
  - reflexivity.
  - reflexivity.
  - reflexivity.
  - reflexivity.
  - specialize (Hsupplied "bogus" (VInt 1) I eq_refl).
    vm_compute in Hsupplied. discriminate.
Qed.

(** PUT of [{"name": 5}] on [/thing/1] answers 200 and the text column
    stores ["5"], which is also what the answer shows. *)
Example put_number_in_text_column :
  let r := AbstractHandler_call (UpdateHandler_handle Thing)
             (item_request "1" (Some (VDict [("name", VInt 5)]))) one_thing in
  r.1 = Ok (thing_1 "5") ∧ stored_attr (storage r.2) 1 "name" = Some (VStr "5").
Proof. split; vm_compute; reflexivity. Qed.

(** POST of [{"pk": 1, "name": [1]}] when entity 1 exists: the list cannot be
    bound, and that is what is raised. *)
Example post_list_in_text_column :
  (AbstractHandler_call (CreateHandler_handle Thing)
     (collection_request (Some (VDict [("pk", VInt 1); ("name", VList [VInt 1])])))
     one_thing).1
  = Raise InterfaceError.
Proof. vm_compute. reflexivity. Qed.

(** ** The further properties at work on [Thing] *)

(** DELETE of [/thing/1] answers 204. *)
Lemma answers_are_200_201_204_404_witness :
  status no_content ∈ [200; 201; 204; 404].
Proof.
  apply (answers_are_200_201_204_404 Thing (item_request "1" None)
           (blank_state (storage one_thing)) DeleteHandler_handle no_content).
  - unfold handle_methods. set_solver.
  - vm_compute. reflexivity.
Defined.

(** POST of [{"name": "a"}] on the empty table. *)
Lemma entity_answers_list_the_columns_witness :
  let response := {| status := 201; body := body (thing_1 "a");
                     content_type := Some "application/json"; headers := [] |} in
  status response = 201 ∧ entity_body Thing response.
Proof.
  apply (proj1 (entity_answers_list_the_columns Thing post_name_a
                  (blank_state ∅)
                  (CreateHandler_handle Thing post_name_a (blank_state ∅)).2
                  {| status := 201; body := body (thing_1 "a");
                     content_type := Some "application/json"; headers := [] |})).
  vm_compute. reflexivity.
Defined.

(** DELETE with an empty match info. *)
Lemma missing_route_id_raises_key_error_witness :
  (∀ st, DeleteHandler_handle Thing (collection_request None) st = (Raise KeyError, st)) ∧
  (∀ w, AbstractHandler_call (DeleteHandler_handle Thing) (collection_request None) w
        = (Raise KeyError,
           {| storage := storage w; sessions := sessions w ++ [closed_after []] |})).
Proof.
  apply (missing_route_id_raises_key_error Thing (collection_request None)
           DeleteHandler_handle).
  - reflexivity.
  - set_solver.
Defined.

(** POST of the JSON list [[1]]. *)
Lemma create_refuses_non_object_body_witness :
  CreateHandler_handle Thing (collection_request (Some (VList [VInt 1])))
    (blank_state ∅)
  = (Raise TypeError, blank_state ∅).
Proof.
  apply (create_refuses_non_object_body Thing
           (collection_request (Some (VList [VInt 1]))) (blank_state ∅)).
  intros d. discriminate.
Defined.

(** PUT on [/thing/1] with a body that is no JSON document. *)
Lemma update_refuses_non_object_body_witness :
  AbstractHandler_call (UpdateHandler_handle Thing) (item_request "1" None) one_thing
  = (Raise JSONDecodeError,
     {| storage := storage one_thing;
        sessions := sessions one_thing ++ [closed_after [CQuery]] |}).
Proof.
  apply (update_refuses_non_object_body Thing (item_request "1" None) one_thing
           "1" 1 {[ "pk" := VInt 1; "name" := VStr "a" ]} UpdateHandler_handle).
  - by apply (bool_decide_unpack _).
  - reflexivity.
  - reflexivity.
  - reflexivity.
  - intros d. discriminate.
  - set_solver.
Defined.

(** GET of [/thing/1]. *)
Lemma read_answers_stored_entity_witness :
  ∃ d,
    AbstractHandler_call (ReadHandler_handle Thing) (item_request "1" None) one_thing
    = (Ok {| status := 200; body := JsonBody (VDict d);
             content_type := Some "application/json"; headers := [] |},
       {| storage := storage one_thing;
          sessions := sessions one_thing ++ [closed_after [CQuery]] |}) ∧
    dict_get "pk" d = Some (VInt 1) ∧
    ∀ k, k ∈ columns Thing → k ≠ "pk" →
         dict_get k d
         = Some (default VNone
                   (({[ "pk" := VInt 1; "name" := VStr "a" ]} : gmap string value) !! k)).
Proof.
  apply (read_answers_stored_entity Thing (item_request "1" None) one_thing "1" 1
           {[ "pk" := VInt 1; "name" := VStr "a" ]}).
  - by apply (bool_decide_unpack _).
  - reflexivity.
  - reflexivity.
  - reflexivity.
Defined.

(** DELETE of [/thing/1]. *)
Lemma delete_removes_the_entity_witness :
  ∃ w',
    AbstractHandler_call (DeleteHandler_handle Thing) (item_request "1" None) one_thing
    = (Ok no_content, w') ∧
    sessions w' = sessions one_thing ++ [closed_after [CQuery; CDelete; CCommit]] ∧
    storage w' !! 1 = None ∧
    (∀ p', p' ≠ 1 → storage w' !! p' = storage one_thing !! p') ∧
    size (storage w') = pred (size (storage one_thing)).
Proof.
  apply (delete_removes_the_entity Thing (item_request "1" None) one_thing "1" 1
           {[ "pk" := VInt 1; "name" := VStr "a" ]}).
  - by apply (bool_decide_unpack _).
  - reflexivity.
  - reflexivity.
  - reflexivity.
Defined.


(** GET of [/thing/1] from a session that is yet unused. *)
Lemma reading_handlers_never_write_witness :
  reads_only (blank_state (storage one_thing))
    (ReadHandler_handle Thing (item_request "1" None)
       (blank_state (storage one_thing))).2.
Proof.
  apply (reading_handlers_never_write Thing (item_request "1" None)
           ReadHandler_handle (blank_state (storage one_thing))).
  set_solver.
Defined.

(** GET of the collection. *)
Lemma reading_requests_keep_storage_witness :
  let w' := (AbstractHandler_call (RetrieveAllHandler_handle Thing)
               (collection_request None) one_thing).2 in
  storage w' = storage one_thing ∧
  ∃ s, sessions w' = sessions one_thing ++ [s] ∧ is_open s = false ∧
       Forall (λ c, is_write c = false) (calls s).
Proof.
  apply (reading_requests_keep_storage Thing (collection_request None) one_thing
           RetrieveAllHandler_handle).
  set_solver.
Defined.

(** POST of [{"name": "a"}] on the empty table. *)
Lemma create_adds_one_row_witness :
  let w' := (AbstractHandler_call (CreateHandler_handle Thing) post_name_a
               empty_world).2 in
  ∃ p row,
    storage empty_world !! p = None ∧
    storage w' = <[p := row]> (storage empty_world) ∧
    size (storage w') = S (size (storage empty_world)) ∧
    JsonBody (VDict [("pk", VInt 1); ("name", VStr "a")])
    = JsonBody (serialized Thing (p, row)) ∧
    ∀ k v, k ∈ columns Thing → k ≠ "pk" →
           dict_get k [("name", VStr "a")] = Some v →
           ∃ v', bind k v = Ok v' ∧ row !! k = Some v'.
Proof.
  apply (create_adds_one_row Thing post_name_a empty_world _
           {| status := 201; body := body (thing_1 "a");
              content_type := Some "application/json"; headers := [] |}
           [("name", VStr "a")]).
  - vm_compute. reflexivity.
  - reflexivity.
Defined.

(** POST of [{"name": "a"}] on the empty table, then GET of the collection. *)
Lemma created_entity_is_listed_witness :
  let w' := (AbstractHandler_call (CreateHandler_handle Thing) post_name_a
               empty_world).2 in
  ∃ l w'',
    AbstractHandler_call (RetrieveAllHandler_handle Thing) (collection_request None) w'
    = (Ok {| status := 200; body := JsonBody (VList l);
             content_type := Some "application/json"; headers := [] |}, w'') ∧
    length l = S (size (storage empty_world)) ∧
    ∃ d, JsonBody (VDict [("pk", VInt 1); ("name", VStr "a")]) = JsonBody d ∧ d ∈ l.
Proof.
  apply (created_entity_is_listed Thing post_name_a (collection_request None)
           empty_world _
           {| status := 201; body := body (thing_1 "a");
              content_type := Some "application/json"; headers := [] |}).
  vm_compute. reflexivity.
Defined.

(** POST of [{"name": "a"}] on the empty table, then DELETE of [/thing/1]. *)
Lemma create_then_delete_restores_table_witness :
  let w' := (AbstractHandler_call (CreateHandler_handle Thing) post_name_a
               empty_world).2 in
  ∃ w'',
    AbstractHandler_call (DeleteHandler_handle Thing) (item_request "1" None) w'
    = (Ok no_content, w'') ∧
    storage w'' = storage empty_world.
Proof.
  apply (create_then_delete_restores_table Thing post_name_a (item_request "1" None)
           empty_world _
           {| status := 201; body := body (thing_1 "a");
              content_type := Some "application/json"; headers := [] |}
           [("pk", VInt 1); ("name", VStr "a")] "1" 1).
  - by apply (bool_decide_unpack _).
  - vm_compute. reflexivity.
  - reflexivity.
  - reflexivity.
  - reflexivity.
  - reflexivity.
Defined.

(** POST of [{"pk": 1, "name": "z"}] when entity 1 exists. *)
Lemma create_refuses_taken_pk_witness :
  let kwargs := [("pk", VInt 1); ("name", VStr "z")] in
  ∃ e,
    AbstractHandler_call (CreateHandler_handle Thing)
      (collection_request (Some (VDict kwargs))) one_thing
    = (Raise e,
       {| storage := storage one_thing;
          sessions := sessions one_thing ++ [closed_after [CAdd; CCommit]] |}) ∧
    ((∀ k v, k ∈ columns Thing → k ≠ "pk" → dict_get k kwargs = Some v →
             ∃ v', bind k v = Ok v') →
     e = IntegrityError) ∧
    (e = IntegrityError ∨
     ∃ k v, k ∈ columns Thing ∧ k ≠ "pk" ∧ dict_get k kwargs = Some v ∧
            bind k v = Raise e).
Proof.
  apply (create_refuses_taken_pk Thing
           (collection_request (Some (VDict [("pk", VInt 1); ("name", VStr "z")])))
           one_thing [("pk", VInt 1); ("name", VStr "z")] 1
           {[ "pk" := VInt 1; "name" := VStr "a" ]}).
  - by apply (bool_decide_unpack _).
  - reflexivity.
  - repeat constructor.
  - reflexivity.
  - reflexivity.
Defined.

(** PUT of [{"name": "b"}] on [/thing/1]. *)
Lemma update_touches_one_entity_witness :
  let w' := (AbstractHandler_call (UpdateHandler_handle Thing) put_name_b one_thing).2 in
  (∀ p', p' ≠ 1 → p' ≠ 1 → storage w' !! p' = storage one_thing !! p') ∧
  (1 ≠ 1 → storage w' !! 1 = None) ∧
  (∀ k, k ∉ columns Thing →
        stored_attr (storage w') 1 k = stored_attr (storage one_thing) 1 k) ∧
  sessions w' = sessions one_thing ++ [closed_after [CQuery; CAdd; CCommit; CRefresh]].
Proof.
  apply (update_touches_one_entity Thing put_name_b one_thing _ (thing_1 "b") "1" 1
           [("name", VStr "b")] UpdateHandler_handle).
  - set_solver.
  - vm_compute. reflexivity.
  - reflexivity.
  - reflexivity.
  - reflexivity.
  - reflexivity.
Defined.

(** PUT of [{"name": "b"}] on [/thing/1], then GET of [/thing/1]. *)
Lemma updated_entity_is_read_back_witness :
  (AbstractHandler_call (ReadHandler_handle Thing) (item_request "1" None)
     (AbstractHandler_call (UpdateHandler_handle Thing) put_name_b one_thing).2).1
  = Ok (thing_1 "b").
Proof.
  apply (updated_entity_is_read_back Thing put_name_b (item_request "1" None)
           one_thing _ (thing_1 "b") "1" "1" 1 [("name", VStr "b")]
           UpdateHandler_handle).
  - set_solver.
  - vm_compute. reflexivity.
  - reflexivity.
  - reflexivity.
  - reflexivity.
  - reflexivity.
  - reflexivity.
  - reflexivity.
Defined.

(** PATCH of [{"name": "b"}] on [/thing/1], twice. *)
Lemma update_is_idempotent_witness :
  let w' := (AbstractHandler_call (PatchHandler_handle Thing) put_name_b one_thing).2 in
  ∃ w'',
    AbstractHandler_call (PatchHandler_handle Thing) put_name_b w'
    = (Ok (thing_1 "b"), w'') ∧
    storage w'' = storage w'.
Proof.
  apply (update_is_idempotent Thing put_name_b one_thing _ (thing_1 "b") "1" 1
           [("name", VStr "b")] PatchHandler_handle).
  - set_solver.
  - vm_compute. reflexivity.
  - reflexivity.
  - reflexivity.
  - reflexivity.
  - reflexivity.
  - reflexivity.
Defined.
